(** * CityScout web UI controller (static/js/app.js)

    A shallow embedding of the [CityScout] class: the display formatters
    ([formatNumber], [formatCurrency], [formatPercentage]), the insight
    engine ([generateInsights]), the result renderer ([displayResults]) and
    the request coordinator ([analyzeCity]) together with the show/hide
    helpers it drives.

    JavaScript numbers are IEEE-754 binary64 values; they are modelled by
    Rocq's primitive floats, so that comparisons, divisions and products are
    the ones the script performs.  Conversions of numbers to text
    (Number::toString, [toFixed], the en-US number formats) are computed on
    the exact value of the float with integer arithmetic. *)

From Stdlib Require Import ZArith List String Ascii Bool Lia Floats DecimalString.
Import ListNotations.
Set Warnings "-inexact-float".
Local Open Scope string_scope.
Local Open Scope Z_scope.

(** ** The fragment of JavaScript the script relies on *)

Module JS.

Definition number := float.
Bind Scope float_scope with number.

(** The values a numeric field of a parsed JSON record holds when it is a
    number, [null], or missing (reading a missing key gives [undefined]). *)
Inductive value : Type :=
| Undefined
| Null
| Num (x : number).

Definition isNaN (x : number) : bool := negb (PrimFloat.eqb x x).

(** ToBoolean: [undefined], [null], [+0], [-0] and [NaN] are falsy. *)
Definition truthy (v : value) : bool :=
  match v with
  | Undefined | Null => false
  | Num x => negb (PrimFloat.eqb x 0 || isNaN x)
  end.

(** ToNumber. *)
Definition toNumber (v : value) : number :=
  match v with
  | Undefined => nan
  | Null => 0%float
  | Num x => x
  end.

(** [a || b] on values. *)
Definition logical_or (a b : value) : value := if truthy a then a else b.

(** [a > b], [a < b] and [a >= b] after ToNumber; a comparison with NaN is
    false. *)
Definition gt (a : value) (b : number) : bool := PrimFloat.ltb b (toNumber a).
Definition lt (a : value) (b : number) : bool := PrimFloat.ltb (toNumber a) b.
Definition ge (a : value) (b : number) : bool := PrimFloat.leb b (toNumber a).

(** [v !== undefined] and the test [v === undefined || v === null]. *)
Definition isUndefined (v : value) : bool :=
  match v with Undefined => true | _ => false end.
Definition isNullish (v : value) : bool :=
  match v with Undefined | Null => true | Num _ => false end.

(** *** Decimal text of integers *)

Definition digits (n : Z) : string := NilZero.string_of_uint (N.to_uint (Z.to_N n)).

Definition len (s : string) : Z := Z.of_nat (String.length s).

Fixpoint repeat0 (n : nat) : string :=
  match n with
  | O => ""
  | S k => String "0" (repeat0 k)
  end.

Definition zeros (n : Z) : string := repeat0 (Z.to_nat n).

Definition sub (from count : Z) (s : string) : string :=
  substring (Z.to_nat from) (Z.to_nat count) s.

(** *** Exact value of a finite float

    [Prim2SF x = S754_finite s m e] means [x = (-1)^s * m * 2^e]. *)

Definition exact (m e : Z) : Z * Z :=
  if 0 <=? e then (m * 2 ^ e, 1) else (m, 2 ^ (- e)).

(** The [n] with [10^(n-1) <= m * 2^e < 10^n]. *)
Definition exponent10 (m e : Z) : Z :=
  let '(vn, vd) := exact m e in
  if vd <=? vn then len (digits (vn / vd)) else 1 - len (digits (vd / vn)).

(** *** Number::toString (radix 10)

    The digits are the shortest decimal [s * 10^(n-k)] that reads back as
    the same float: it lies in the rounding interval of the float, whose
    ends are the midpoints with the neighbouring floats and belong to it
    when the mantissa is even.  Quantities are kept as numerators over the
    common denominator [den], in quarter units of the last place. *)

Record interval := { i_lo : Z; i_v : Z; i_hi : Z; i_den : Z; i_closed : bool }.

Definition rounding_interval (m e p : Z) : interval :=
  let boundary := (m =? 2 ^ 52) && (-1074 <? e) in
  let e2 := e - 2 in
  let f2 := if 0 <=? e2 then 2 ^ e2 else 1 in
  let d2 := if 0 <=? e2 then 1 else 2 ^ (- e2) in
  let f10 := if 0 <=? p then 1 else 10 ^ (- p) in
  let d10 := if 0 <=? p then 10 ^ p else 1 in
  {| i_lo := (if boundary then 4 * m - 1 else 4 * m - 2) * f2 * f10;
     i_v := 4 * m * f2 * f10;
     i_hi := (4 * m + 2) * f2 * f10;
     i_den := d2 * d10;
     i_closed := Z.even m |}.

Definition inside (i : interval) (s : Z) : bool :=
  let x := s * i_den i in
  if i_closed i then (i_lo i <=? x) && (x <=? i_hi i)
  else (i_lo i <? x) && (x <? i_hi i).

(** The [k]-digit candidate, if one of the two integers around
    [v / 10^(n-k)] reads back as the float; the closer one is preferred,
    the even one on a tie. *)
Definition candidate (m e n k : Z) : option Z :=
  let i := rounding_interval m e (n - k) in
  let lo := i_v i / i_den i in
  let hi := lo + 1 in
  let dlo := i_v i - lo * i_den i in
  let dhi := hi * i_den i - i_v i in
  match inside i lo, inside i hi with
  | true, true =>
      if dlo <? dhi then Some lo
      else if dhi <? dlo then Some hi
      else if Z.even lo then Some lo else Some hi
  | true, false => Some lo
  | false, true => Some hi
  | false, false => None
  end.

Fixpoint search (fuel : nat) (m e n k : Z) : Z * Z * Z :=
  match fuel with
  | O => (i_v (rounding_interval m e (n - k)) / i_den (rounding_interval m e (n - k)), k, n)
  | S fuel' =>
      match candidate m e n k with
      | Some s => if s =? 10 ^ k then (1, 1, n + 1) else (s, k, n)
      | None => search fuel' m e n (k + 1)
      end
  end.

(** [(s, k, n)]: the digits [s], their count [k] and the decimal exponent
    [n] of Number::toString. *)
Definition shortest (m e : Z) : Z * Z * Z :=
  search 20 m e (exponent10 m e) 1.

Definition layout (ds : string) (k n : Z) : string :=
  if (k <=? n) && (n <=? 21) then ds ++ zeros (n - k)
  else if (0 <? n) && (n <=? 21) then sub 0 n ds ++ "." ++ sub n (k - n) ds
  else if (-6 <? n) && (n <=? 0) then "0." ++ zeros (- n) ++ ds
  else
    let ex := n - 1 in
    let es := (if ex <? 0 then "-" else "+") ++ digits (Z.abs ex) in
    if k =? 1 then ds ++ "e" ++ es
    else sub 0 1 ds ++ "." ++ sub 1 (k - 1) ds ++ "e" ++ es.

Definition Number_toString (x : number) : string :=
  match Prim2SF x with
  | S754_nan => "NaN"
  | S754_zero _ => "0"
  | S754_infinity s => (if s then "-" else "") ++ "Infinity"
  | S754_finite s m e =>
      let '(d, k, n) := shortest (Z.pos m) e in
      (if s then "-" else "") ++ layout (digits d) k n
  end.

(** *** Number.prototype.toFixed

    [n] is the integer nearest to [|x| * 10^fd], the larger one on a tie;
    values of magnitude [10^21] and more, and non-finite ones, print as
    Number::toString does. *)

Definition fixed (vn vd fd : Z) : string :=
  let n := (2 * vn * 10 ^ fd + vd) / (2 * vd) in
  let ms := digits n in
  if fd =? 0 then ms
  else
    let ms := if len ms <=? fd then zeros (fd + 1 - len ms) ++ ms else ms in
    sub 0 (len ms - fd) ms ++ "." ++ sub (len ms - fd) fd ms.

Definition toFixed (x : number) (fd : Z) : string :=
  match Prim2SF x with
  | S754_finite s m e =>
      let '(vn, vd) := exact (Z.pos m) e in
      (if s then "-" else "") ++
      (if 10 ^ 21 * vd <=? vn then Number_toString (PrimFloat.abs x)
       else fixed vn vd fd)
  | S754_zero _ => fixed 0 1 fd
  | _ => Number_toString x
  end.

(** *** Math.round and Math.abs

    [Math.round] gives the nearest integer, the larger one on a tie; a
    result of zero keeps the sign of the argument.  A finite float with
    [e >= 0] is an integer already. *)

Definition of_Z (z : Z) : number :=
  let a := PrimFloat.of_uint63 (Uint63.of_Z (Z.abs z)) in
  if z <? 0 then PrimFloat.opp a else a.

Definition Math_round (x : number) : number :=
  match Prim2SF x with
  | S754_finite s m e =>
      if 0 <=? e then x
      else
        let d := 2 ^ (- e) in
        let r := ((if s then - (2 * Z.pos m) else 2 * Z.pos m) + d) / (2 * d) in
        if r =? 0 then (if s then PrimFloat.opp 0 else 0%float) else of_Z r
  | _ => x
  end.

Definition Math_abs (v : value) : number := PrimFloat.abs (toNumber v).

End JS.

Bind Scope float_scope with JS.number.

(** ** Number formats of the en-US locale

    The engines format the shortest decimal that reads back as the float
    (the digits of Number::toString), rounded half away from zero to the
    requested number of fraction digits, with the integer part grouped in
    threes. *)

Module Intl.

Fixpoint group_rev (l : list ascii) (i : nat) : list ascii :=
  match l with
  | [] => []
  | c :: r =>
      if Nat.eqb i 3 then ","%char :: c :: group_rev r 1
      else c :: group_rev r (S i)
  end.

Definition grouped (ds : string) : string :=
  string_of_list_ascii (rev (group_rev (rev (list_ascii_of_string ds)) 0)).

(** [|x| * 10^fd] rounded half away from zero, for [x = s * 10^(n-k)]. *)
Definition rounded (s k n fd : Z) : Z :=
  let p := n - k + fd in
  if 0 <=? p then s * 10 ^ p
  else (2 * s + 10 ^ (- p)) / (2 * 10 ^ (- p)).

Fixpoint strip0 (l : list ascii) : list ascii :=
  match l with
  | "0"%char :: r => strip0 r
  | _ => l
  end.

(** The fraction digits, at most [fd] of them, without trailing zeros. *)
Definition fraction (t fd : Z) : string :=
  let fs := JS.digits (t mod 10 ^ fd) in
  let fs := JS.zeros (fd - JS.len fs) ++ fs in
  let fs := string_of_list_ascii (rev (strip0 (rev (list_ascii_of_string fs)))) in
  if JS.len fs =? 0 then "" else "." ++ fs.

Definition infinity_sign : string := "∞".

(** The unsigned text of a number, at most [fd] fraction digits. *)
Definition magnitude (x : JS.number) (fd : Z) : string :=
  match Prim2SF x with
  | S754_nan => "NaN"
  | S754_infinity _ => infinity_sign
  | S754_zero _ => "0"
  | S754_finite _ m e =>
      let '(s, k, n) := JS.shortest (Z.pos m) e in
      let t := rounded s k n fd in
      grouped (JS.digits (t / 10 ^ fd)) ++ fraction t fd
  end.

Definition negative (x : JS.number) : bool :=
  match Prim2SF x with
  | S754_zero s | S754_infinity s | S754_finite s _ _ => s
  | S754_nan => false
  end.

(** [x.toLocaleString()] in the en-US locale: plain decimal style, up to
    three fraction digits. *)
Definition toLocaleString_enUS (x : JS.number) : string :=
  (if negative x then "-" else "") ++ magnitude x 3.

(** [new Intl.NumberFormat('en-US', {style: 'currency', currency: 'USD',
    maximumFractionDigits: 0}).format(x)]. *)
Definition format_USD_0 (x : JS.number) : string :=
  (if negative x then "-" else "") ++ "$" ++ magnitude x 0.

End Intl.

(** ** Data model *)

(** The record the analysis service returns.  A numeric field that the
    response omits reads as [JS.Undefined]. *)
Record AnalysisRecord := {
  city : string;
  state : string;
  total_population : JS.value;
  population : JS.value;
  population_growth_5yr : JS.value;
  median_household_income : JS.value;
  unemployment_rate : JS.value
}.

(** A child of the [#insights] container. *)
Record div := { className : string; textContent : string }.

(** ** The insight and formatting engine *)

Section Engine.

(** [Number.prototype.toLocaleString()] with no argument formats in the
    default locale of the browser, which the script does not choose. *)
Variable toLocaleString : JS.number -> string.

Local Open Scope float_scope.

Definition formatNumber (num : JS.value) : string :=
  if negb (JS.truthy num) then "N/A"
  else if JS.ge num 1000000 then
    JS.Number_toString (JS.Math_round (JS.toNumber num / 100000) / 10) ++ "M"
  else if JS.ge num 1000 then
    JS.Number_toString (JS.Math_round (JS.toNumber num / 100) / 10) ++ "K"
  else toLocaleString (JS.toNumber num).

Definition formatCurrency (amount : JS.value) : string :=
  if negb (JS.truthy amount) then "N/A"
  else Intl.format_USD_0 (JS.toNumber amount).

Definition formatPercentage (value : JS.value) : string :=
  if JS.isNullish value then "N/A"
  else JS.toFixed (JS.toNumber value) 1 ++ "%".

(** [insights.push(s)]. *)
Definition push (insights : list string) (s : string) : list string :=
  insights ++ [s].

(** Population insights (lines 92-104). *)
Definition populationInsights (data : AnalysisRecord) (insights : list string)
  : list string :=
  if JS.truthy (JS.logical_or (total_population data) (population data)) then
    let population := JS.logical_or (total_population data) (population data) in
    if JS.gt population 1000000 then
      push insights (city data ++ " is a major metropolitan area with "
                     ++ formatNumber population ++ " residents.")
    else if JS.gt population 500000 then
      push insights (city data ++ " is a substantial city with "
                     ++ formatNumber population ++ " residents.")
    else if JS.gt population 100000 then
      push insights (city data ++ " is a mid-size city with "
                     ++ formatNumber population ++ " residents.")
    else
      push insights (city data ++ " is a smaller city with "
                     ++ formatNumber population ++ " residents.")
  else insights.

(** Growth insights (lines 106-120). *)
Definition growthInsights (data : AnalysisRecord) (insights : list string)
  : list string :=
  if negb (JS.isUndefined (population_growth_5yr data)) then
    let growth := population_growth_5yr data in
    if JS.gt growth 10 then
      push insights ("Rapid population growth of " ++ formatPercentage growth
                     ++ " over the past 5 years.")
    else if JS.gt growth 5 then
      push insights ("Strong population growth of " ++ formatPercentage growth
                     ++ " over the past 5 years.")
    else if JS.gt growth 0 then
      push insights ("Moderate population growth of " ++ formatPercentage growth
                     ++ " over the past 5 years.")
    else if JS.lt growth 0 then
      push insights ("Population decline of "
                     ++ formatPercentage (JS.Num (JS.Math_abs growth))
                     ++ " over the past 5 years.")
    else
      push insights "Population has remained stable over the past 5 years."
  else insights.

Definition nationalMedian : JS.number := 70000.

(** Income insights (lines 122-136). *)
Definition incomeInsights (data : AnalysisRecord) (insights : list string)
  : list string :=
  if JS.truthy (median_household_income data) then
    let income := median_household_income data in
    if JS.gt income (nationalMedian * 1.3) then
      push insights ("Median household income of " ++ formatCurrency income
                     ++ " is significantly above national average.")
    else if JS.gt income (nationalMedian * 1.1) then
      push insights ("Median household income of " ++ formatCurrency income
                     ++ " is above national average.")
    else if JS.lt income (nationalMedian * 0.8) then
      push insights ("Median household income of " ++ formatCurrency income
                     ++ " is below national average.")
    else
      push insights ("Median household income of " ++ formatCurrency income
                     ++ " is close to national average.")
  else insights.

(** Employment insights (lines 138-150). *)
Definition employmentInsights (data : AnalysisRecord) (insights : list string)
  : list string :=
  if negb (JS.isUndefined (unemployment_rate data)) then
    let unemployment := unemployment_rate data in
    if JS.lt unemployment 3 then
      push insights ("Very low unemployment rate of "
                     ++ formatPercentage unemployment ++ ".")
    else if JS.lt unemployment 5 then
      push insights ("Low unemployment rate of "
                     ++ formatPercentage unemployment ++ ".")
    else if JS.gt unemployment 8 then
      push insights ("Higher unemployment rate of "
                     ++ formatPercentage unemployment ++ ".")
    else
      push insights ("Unemployment rate of " ++ formatPercentage unemployment
                     ++ " is around national average.")
  else insights.

(** The array [insights] when the four blocks have run (line 151). *)
Definition collectInsights (data : AnalysisRecord) : list string :=
  let insights := [] in
  let insights := populationInsights data insights in
  let insights := growthInsights data insights in
  let insights := incomeInsights data insights in
  let insights := employmentInsights data insights in
  insights.

(** [insightsContainer.appendChild(div)] for one insight. *)
Definition appendInsight (container : list div) (insight : string) : list div :=
  container ++ [{| className := "insight-item"; textContent := insight |}].

Definition fallback : string := "No specific insights available with current data.".

(** [generateInsights(data)]: the children of the [#insights] container
    once the method has run.  The container is emptied first, so they do
    not depend on what it held before. *)
Definition generateInsights (data : AnalysisRecord) : list div :=
  let insights := collectInsights data in
  let container := [] in
  let container := fold_left appendInsight insights container in
  if Nat.eqb (List.length insights) 0%nat then
    [{| className := "insight-item"; textContent := fallback |}]
  else container.

(** The sentences shown, in display order. *)
Definition sentences (container : list div) : list string :=
  map textContent container.

End Engine.

(** ** The page

    The elements the controller holds or looks up by id, reduced to the
    properties the script reads or writes. *)

Inductive slot : Type :=
| city_value                  (* #city .value *)
| state_value                 (* #state .value *)
| loading_display             (* #loading .style.display *)
| analyzeBtn_disabled         (* #analyzeBtn .disabled *)
| btnText_display             (* #analyzeBtn .btn-text .style.display *)
| spinner_display             (* #analyzeBtn .loading-spinner .style.display *)
| error_textContent           (* #error .textContent *)
| error_display               (* #error .style.display *)
| results_display             (* #results .style.display *)
| results_show                (* 'show' in #results .classList *)
| cityName_textContent
| analysisDate_textContent
| population_textContent
| growth_textContent
| income_textContent
| unemployment_textContent
| insights_children           (* children of #insights *)
| jsonData_textContent
| jsonData_display
| toggleJson_textContent.

Inductive prop : Type :=
| Str (s : string)
| Flag (b : bool)
| Children (l : list div).

Definition slot_eqb (a b : slot) : bool :=
  match a, b with
  | city_value, city_value | state_value, state_value
  | loading_display, loading_display | analyzeBtn_disabled, analyzeBtn_disabled
  | btnText_display, btnText_display | spinner_display, spinner_display
  | error_textContent, error_textContent | error_display, error_display
  | results_display, results_display | results_show, results_show
  | cityName_textContent, cityName_textContent
  | analysisDate_textContent, analysisDate_textContent
  | population_textContent, population_textContent
  | growth_textContent, growth_textContent
  | income_textContent, income_textContent
  | unemployment_textContent, unemployment_textContent
  | insights_children, insights_children
  | jsonData_textContent, jsonData_textContent
  | jsonData_display, jsonData_display
  | toggleJson_textContent, toggleJson_textContent => true
  | _, _ => false
  end.

Definition DOM := slot -> prop.

Definition set (k : slot) (v : prop) (d : DOM) : DOM :=
  fun k' => if slot_eqb k k' then v else d k'.

(** The text a string-valued property holds. *)
Definition text (d : DOM) (k : slot) : string :=
  match d k with Str s => s | _ => "" end.

(** ** String.prototype.trim

    Strings are UTF-8 byte sequences.  [trim] removes the WhiteSpace and
    LineTerminator code points of ECMAScript from both ends: U+0009-000D,
    U+0020, U+00A0, U+1680, U+2000-200A, U+2028, U+2029, U+202F, U+205F,
    U+3000 and U+FEFF. *)

Module Trim.

Definition byte (c : ascii) : nat := nat_of_ascii c.

Definition ws1 (a : nat) : bool :=
  ((9 <=? a) && (a <=? 13) || (a =? 32))%nat.

Definition ws2 (a b : nat) : bool := ((a =? 194) && (b =? 160))%nat.

Definition ws3 (a b c : nat) : bool :=
  (((a =? 225) && (b =? 154) && (c =? 128))
   || ((a =? 226) && (b =? 128)
       && ((128 <=? c) && (c <=? 138) || (c =? 168) || (c =? 169) || (c =? 175)))
   || ((a =? 226) && (b =? 129) && (c =? 159))
   || ((a =? 227) && (b =? 128) && (c =? 128))
   || ((a =? 239) && (b =? 187) && (c =? 191)))%nat.

(** What is left when one white-space code point is taken off the front;
    [fwd] tells whether the bytes come in reading order or reversed. *)
Definition strip1 (fwd : bool) (l : list ascii) : option (list ascii) :=
  match l with
  | a :: r1 =>
      if ws1 (byte a) then Some r1
      else
        match r1 with
        | b :: r2 =>
            if (if fwd then ws2 (byte a) (byte b) else ws2 (byte b) (byte a))
            then Some r2
            else
              match r2 with
              | c :: r3 =>
                  if (if fwd then ws3 (byte a) (byte b) (byte c)
                      else ws3 (byte c) (byte b) (byte a))
                  then Some r3 else None
              | [] => None
              end
        | [] => None
        end
  | [] => None
  end.

Fixpoint strip (fuel : nat) (fwd : bool) (l : list ascii) : list ascii :=
  match fuel with
  | O => l
  | S fuel' =>
      match strip1 fwd l with
      | Some r => strip fuel' fwd r
      | None => l
      end
  end.

Definition trimStart (l : list ascii) : list ascii := strip (List.length l) true l.

Definition trimEnd (l : list ascii) : list ascii :=
  rev (strip (List.length l) false (rev l)).

Definition trim (s : string) : string :=
  string_of_list_ascii (trimEnd (trimStart (list_ascii_of_string s))).

(** A text made of white-space code points only. *)
Inductive blank : list ascii -> Prop :=
| blank_nil : blank []
| blank_1 a r : ws1 (byte a) = true -> blank r -> blank (a :: r)
| blank_2 a b r : ws2 (byte a) (byte b) = true -> blank r -> blank (a :: b :: r)
| blank_3 a b c r :
    ws3 (byte a) (byte b) (byte c) = true -> blank r -> blank (a :: b :: c :: r).

End Trim.

(** [!s] for a string: only the empty string is falsy. *)
Definition empty (s : string) : bool :=
  match s with EmptyString => true | String _ _ => false end.

(** ** The analysis service *)

(** The body of a request: [JSON.stringify({ city, state })]. *)
Record AnalysisRequest := { request_city : string; request_state : string }.

Record Request := {
  url : string;
  method : string;
  contentType : string;
  body : AnalysisRequest
}.

(** A parsed response body [{ success, data?, error? }]; [success] is the
    truth value of the flag, an omitted key is [None]. *)
Record ServiceResponse := {
  success : bool;
  data : option AnalysisRecord;
  error : option string
}.

(** How a call of the service ends. *)
Inductive Reply : Type :=
| FetchRejects                      (* [fetch] rejects: no connection *)
| JsonRejects                       (* [response.json()] rejects: not JSON *)
| JsonNull                          (* the body is the JSON text [null] *)
| Json (r : ServiceResponse).

(** ** Effects: the page, the requests sent, the console; exceptions *)

Record World := {
  dom : DOM;
  requests : list Request;
  console : list string
}.

Inductive exn : Type := TypeError | NetworkError | SyntaxError.

Inductive completion (A : Type) : Type :=
| Normal (a : A)
| Throw (e : exn).
Arguments Normal {A} a.
Arguments Throw {A} e.

Definition M (A : Type) : Type := World -> completion A * World.

Definition ret {A} (a : A) : M A := fun w => (Normal a, w).

Definition bind {A B} (c : M A) (k : A -> M B) : M B :=
  fun w =>
    match c w with
    | (Normal a, w') => k a w'
    | (Throw e, w') => (Throw e, w')
    end.

Definition throw {A} (e : exn) : M A := fun w => (Throw e, w).

Declare Scope js_scope.
Delimit Scope js_scope with js.
Notation "x <- c ;; k" := (bind c (fun x => k))
  (at level 61, c at next level, right associativity) : js_scope.
Notation "c ;; k" := (bind c (fun _ => k))
  (at level 61, right associativity) : js_scope.

(** [try { body } catch (e) { handler } finally { final }]: the handler
    runs when the body throws, the finaliser runs in every case, and the
    statement completes as the body or the handler did unless the finaliser
    throws. *)
Definition try_catch_finally {A} (body : M A) (handler : exn -> M A)
    (final : M unit) : M A :=
  fun w =>
    let '(c, w1) :=
      match body w with
      | (Normal a, w') => (Normal a, w')
      | (Throw e, w') => handler e w'
      end in
    match final w1 with
    | (Normal _, w2) => (c, w2)
    | (Throw e, w2) => (Throw e, w2)
    end.

Definition write (k : slot) (v : prop) : M unit :=
  fun w => (Normal tt, {| dom := set k v (dom w); requests := requests w;
                          console := console w |}).

(** Reading a string-valued property. *)
Definition read (k : slot) : M string := fun w => (Normal (text (dom w) k), w).

Definition console_error (msg : string) : M unit :=
  fun w => (Normal tt, {| dom := dom w; requests := requests w;
                          console := console w ++ [msg] |}).

(** The events the controller listens to. *)
Inductive Event : Type := submit_analysisForm | click_toggleJson.

(** ** The controller *)

Section Controller.

Variable toLocaleString : JS.number -> string.

(** [new Date().toLocaleDateString()] at the time of the call. *)
Variable today : string.

(** [JSON.stringify(data, null, 2)] of the record as it was received. *)
Variable stringify : AnalysisRecord -> string.

(** The answer of the service to a request. *)
Variable service : Request -> Reply.

Local Open Scope js_scope.

(** [fetch(url, init)]: the request is sent; the promise rejects when the
    transport fails. *)
Definition fetch (r : Request) : M Reply :=
  fun w =>
    let w' := {| dom := dom w; requests := requests w ++ [r];
                 console := console w |} in
    match service r with
    | FetchRejects => (Throw NetworkError, w')
    | reply => (Normal reply, w')
    end.

(** [response.json()]. *)
Definition json (response : Reply) : M (option ServiceResponse) :=
  match response with
  | FetchRejects | JsonRejects => throw SyntaxError
  | JsonNull => ret None
  | Json r => ret (Some r)
  end.

Definition showLoading : M unit :=
  write loading_display (Str "block") ;;
  write analyzeBtn_disabled (Flag true) ;;
  write btnText_display (Str "none") ;;
  write spinner_display (Str "inline").

Definition hideLoading : M unit :=
  write loading_display (Str "none") ;;
  write analyzeBtn_disabled (Flag false) ;;
  write btnText_display (Str "inline") ;;
  write spinner_display (Str "none").

Definition showError (message : string) : M unit :=
  write error_textContent (Str message) ;;
  write error_display (Str "block").

Definition hideError : M unit :=
  write error_display (Str "none").

(** [scrollIntoView] moves the viewport and changes no property. *)
Definition showResults : M unit :=
  write results_display (Str "block") ;;
  write results_show (Flag true).

Definition hideResults : M unit :=
  write results_display (Str "none") ;;
  write results_show (Flag false).

Definition toggleJsonDisplay : M unit :=
  d <- read jsonData_display ;;
  if String.eqb d "none" then
    write jsonData_display (Str "block") ;;
    write toggleJson_textContent (Str "Hide JSON Data")
  else
    write jsonData_display (Str "none") ;;
    write toggleJson_textContent (Str "Show JSON Data").

(** [displayResults(data)]; reading [data.city] of a missing record
    throws a TypeError. *)
Definition displayResults (data : option AnalysisRecord) : M unit :=
  match data with
  | None => throw TypeError
  | Some data =>
      write cityName_textContent (Str (city data ++ ", " ++ state data)) ;;
      write analysisDate_textContent (Str ("Analysis generated on " ++ today)) ;;
      write population_textContent
        (Str (formatNumber toLocaleString
                (JS.logical_or (total_population data) (population data)))) ;;
      write growth_textContent
        (Str (formatPercentage (population_growth_5yr data))) ;;
      write income_textContent
        (Str (formatCurrency (median_household_income data))) ;;
      write unemployment_textContent
        (Str (formatPercentage (unemployment_rate data))) ;;
      write insights_children (Children (generateInsights toLocaleString data)) ;;
      write jsonData_textContent (Str (stringify data)) ;;
      showResults
  end.

(** [data.error || 'An error occurred while analyzing the city.']: a
    missing and an empty error text are both falsy. *)
Definition error_or_default (e : option string) : string :=
  match e with
  | Some s => if empty s then "An error occurred while analyzing the city." else s
  | None => "An error occurred while analyzing the city."
  end.

(** The request of line 39: a POST of [{ city, state }] as JSON. *)
Definition analysisRequest (city state : string) : Request :=
  {| url := "/api/analyze"; method := "POST";
     contentType := "application/json";
     body := {| request_city := city; request_state := state |} |}.

(** The [try] block (lines 38-53).  Reading [data.success] of a body that
    parsed to [null] throws a TypeError. *)
Definition tryBlock (city state : string) : M unit :=
  response <- fetch (analysisRequest city state) ;;
  parsed <- json response ;;
  match parsed with
  | None => throw TypeError
  | Some parsed =>
      if success parsed then displayResults (data parsed)
      else showError (error_or_default (error parsed))
  end.

(** The [catch] block (lines 54-56). *)
Definition catchBlock (error : exn) : M unit :=
  console_error "Error:" ;;
  showError "Network error. Please check your connection and try again.".

Definition analyzeCity : M unit :=
  c <- read city_value ;;
  s <- read state_value ;;
  let city := Trim.trim c in
  let state := Trim.trim s in
  if empty city || empty state then
    showError "Please enter both city and state."
  else
    showLoading ;;
    hideError ;;
    hideResults ;;
    try_catch_finally (tryBlock city state) catchBlock hideLoading.

(** [bindEvents()]: the form's submit event (its default action prevented)
    runs [analyzeCity], a click on [#toggleJson] runs [toggleJsonDisplay]. *)
Definition bindEvents (e : Event) : M unit :=
  match e with
  | submit_analysisForm => analyzeCity
  | click_toggleJson => toggleJsonDisplay
  end.

End Controller.

(** The page when the request is about to be sent. *)
Definition loading (w : World) : World :=
  snd ((showLoading ;; hideError ;; hideResults)%js w).

(** The ways the [try] block throws. *)
Definition thrown (reply : Reply) : Prop :=
  reply = FetchRejects \/ reply = JsonRejects \/ reply = JsonNull
  \/ exists r, reply = Json r /\ success r = true /\ data r = None.

(** ** Sentence classes of the four rules

    The shapes of the sentences each rule can emit, with the formatted
    figure left open. *)

Inductive PopulationSentence (c : string) : string -> Prop :=
| Major n : PopulationSentence c
    (c ++ " is a major metropolitan area with " ++ n ++ " residents.")
| Substantial n : PopulationSentence c
    (c ++ " is a substantial city with " ++ n ++ " residents.")
| MidSize n : PopulationSentence c
    (c ++ " is a mid-size city with " ++ n ++ " residents.")
| Smaller n : PopulationSentence c
    (c ++ " is a smaller city with " ++ n ++ " residents.").

Inductive GrowthSentence : string -> Prop :=
| Rapid p : GrowthSentence
    ("Rapid population growth of " ++ p ++ " over the past 5 years.")
| Strong p : GrowthSentence
    ("Strong population growth of " ++ p ++ " over the past 5 years.")
| Moderate p : GrowthSentence
    ("Moderate population growth of " ++ p ++ " over the past 5 years.")
| Decline p : GrowthSentence
    ("Population decline of " ++ p ++ " over the past 5 years.")
| Stable : GrowthSentence
    "Population has remained stable over the past 5 years.".

Inductive IncomeSentence : string -> Prop :=
| SignificantlyAbove a : IncomeSentence
    ("Median household income of " ++ a ++ " is significantly above national average.")
| Above a : IncomeSentence
    ("Median household income of " ++ a ++ " is above national average.")
| Below a : IncomeSentence
    ("Median household income of " ++ a ++ " is below national average.")
| CloseTo a : IncomeSentence
    ("Median household income of " ++ a ++ " is close to national average.").

Inductive EmploymentSentence : string -> Prop :=
| VeryLow p : EmploymentSentence ("Very low unemployment rate of " ++ p ++ ".")
| Low p : EmploymentSentence ("Low unemployment rate of " ++ p ++ ".")
| Higher p : EmploymentSentence ("Higher unemployment rate of " ++ p ++ ".")
| Around p : EmploymentSentence
    ("Unemployment rate of " ++ p ++ " is around national average.").

(** ** Scenario data *)

Definition springfield : AnalysisRecord :=
  {| city := "Springfield"; state := "IL";
     total_population := JS.Num 114000;
     population := JS.Undefined;
     population_growth_5yr := JS.Num 3.2;
     median_household_income := JS.Num 65000;
     unemployment_rate := JS.Num 4.1 |}.

(** A record that carries only the names. *)
Definition bare (c s : string) : AnalysisRecord :=
  {| city := c; state := s;
     total_population := JS.Undefined;
     population := JS.Undefined;
     population_growth_5yr := JS.Undefined;
     median_household_income := JS.Undefined;
     unemployment_rate := JS.Undefined |}.

(** A town counted at zero residents and zero income. *)
Definition ghost_town : AnalysisRecord :=
  {| city := "Bodie"; state := "CA";
     total_population := JS.Num 0;
     population := JS.Num 0;
     population_growth_5yr := JS.Undefined;
     median_household_income := JS.Num 0;
     unemployment_rate := JS.Undefined |}.

(** A page with the two inputs filled in and nothing shown yet. *)
Definition page (c s : string) : DOM :=
  fun k =>
    match k with
    | city_value => Str c
    | state_value => Str s
    | analyzeBtn_disabled | results_show => Flag false
    | insights_children => Children []
    | loading_display | error_display | results_display => Str "none"
    | _ => Str ""
    end.

Definition start (c s : string) : World :=
  {| dom := page c s; requests := []; console := [] |}.

(** Services that answer every request the same way. *)
Definition always (reply : Reply) : Request -> Reply := fun _ => reply.

Definition refusal (e : option string) : Reply :=
  Json {| success := false; data := None; error := e |}.

(** A browser for the scenarios: en-US locale, a fixed date, and a
    serialiser that shows the names only. *)
Definition scenario_date : string := "1/15/2025".

Definition scenario_json (r : AnalysisRecord) : string :=
  "{ city: " ++ city r ++ ", state: " ++ state r ++ " }".

Definition submit (service : Request -> Reply) (c s : string)
  : completion unit * World :=
  analyzeCity Intl.toLocaleString_enUS scenario_date scenario_json service
    (start c s).

(** ** Shapes of formatted text *)

Definition first_char (s : string) : option ascii :=
  match s with String c _ => Some c | EmptyString => None end.

Definition is_digit (c : ascii) : bool :=
  (Nat.leb 48 (nat_of_ascii c) && Nat.leb (nat_of_ascii c) 57)%bool.

(** A text that starts with a decimal digit. *)
Definition starts_with_digit (s : string) : Prop :=
  exists c, first_char s = Some c /\ is_digit c = true.

(** A non-empty text that does not begin with a minus sign. *)
Definition unsigned_text (s : string) : Prop :=
  exists c, first_char s = Some c /\ c <> "-"%char.

(** The sign bit of a number that is neither a zero nor a NaN. *)
Definition below_zero (x : JS.number) : bool :=
  match Prim2SF x with
  | S754_infinity s | S754_finite s _ _ => s
  | _ => false
  end.

(** ** More scenario data *)

(** A record whose income sits on the upper cut-off. *)
Definition prosperous : AnalysisRecord :=
  {| city := "Palo Alto"; state := "CA";
     total_population := JS.Num 68572;
     population := JS.Undefined;
     population_growth_5yr := JS.Num (-1.3);
     median_household_income := JS.Num 91000;
     unemployment_rate := JS.Num 2.9 |}.

(** The page once the JSON panel has been toggled from its initial state. *)
Definition json_hidden : World :=
  snd (toggleJsonDisplay (start "Springfield" "IL")).

(** A service that answers with the Springfield record. *)
Definition springfield_service : Request -> Reply :=
  always (Json {| success := true; data := Some springfield; error := None |}).

(** A click on [#toggleJson] in the scenario browser. *)
Definition click (w : World) : completion unit * World :=
  bindEvents Intl.toLocaleString_enUS scenario_date scenario_json
    (always FetchRejects) click_toggleJson w.

(** A record whose tracked fields are all [null]. *)
Definition all_null : AnalysisRecord :=
  {| city := "Springfield"; state := "IL";
     total_population := JS.Null;
     population := JS.Null;
     population_growth_5yr := JS.Null;
     median_household_income := JS.Null;
     unemployment_rate := JS.Null |}.

(** The Springfield record with a [null] unemployment rate. *)
Definition null_rate : AnalysisRecord :=
  {| city := "Springfield"; state := "IL";
     total_population := JS.Num 114000;
     population := JS.Undefined;
     population_growth_5yr := JS.Num 3.2;
     median_household_income := JS.Num 65000;
     unemployment_rate := JS.Null |}.

(** * Properties *)

(** ** Comparisons of floats *)

Lemma SFcompare_antisym (a b : spec_float) :
  SFcompare b a = option_map CompOpp (SFcompare a b).
Proof.
  destruct a as [sa|sa| |sa ma ea], b as [sb|sb| |sb mb eb]; simpl;
    try destruct sa; try destruct sb; simpl; try reflexivity;
    rewrite (Z.compare_antisym ea eb); destruct (ea ?= eb)%Z; simpl; try reflexivity;
    change (Pos.compare_cont Eq mb ma) with (Pos.compare mb ma);
    change (Pos.compare_cont Eq ma mb) with (Pos.compare ma mb);
    rewrite (Pos.compare_antisym ma mb); destruct (ma ?= mb)%positive; reflexivity.
Qed.

(** [x < y] excludes [x >= y]. *)
Lemma ltb_leb_false (x y : float) :
  PrimFloat.ltb x y = true -> PrimFloat.leb y x = false.
Proof.
  rewrite ltb_spec, leb_spec. unfold SFltb, SFleb.
  rewrite (SFcompare_antisym (Prim2SF x) (Prim2SF y)).
  destruct (SFcompare (Prim2SF x) (Prim2SF y)) as [[]|]; simpl; congruence.
Qed.

(** A number below one thousand is not one million or more. *)
Lemma below_thousand_not_million (v : float) :
  PrimFloat.ltb v 1000 = true -> PrimFloat.leb 1000000 v = false.
Proof.
  intros H. destruct (PrimFloat.leb 1000000 v) eqn:E; [exfalso|reflexivity].
  rewrite leb_spec in E. rewrite ltb_spec in H.
  change (Prim2SF 1000000) with (S754_finite false 8589934592000000 (-33)) in E.
  change (Prim2SF 1000) with (S754_finite false 8796093022208000 (-43)) in H.
  unfold SFleb, SFltb, SFcompare in *.
  destruct (Prim2SF v) as [s|s| |s m e]; try destruct s; try discriminate.
  destruct (Z.compare_spec e (-43)), (Z.compare_spec (-33) e); try discriminate; lia.
Qed.

(** ** The number-to-text conversions on known values *)

Example Number_toString_samples :
  map JS.Number_toString
    [0.1 + 0.2; 1e21; 123456789012345680000; 1e-7; 0.000001; 5e-324; -1.5; 100;
     2.4; 45]%float
  = ["0.30000000000000004"; "1e+21"; "123456789012345680000"; "1e-7"; "0.000001";
     "5e-324"; "-1.5"; "100"; "2.4"; "45"].
Proof. vm_compute. reflexivity. Qed.

Example toFixed_samples :
  map (fun x => JS.toFixed x 1)
    [3.2; 4.1; 0; 0.25; 1.45; -1.45; 0.04; -0.01; 9.95; 1e21; nan]%float
  = ["3.2"; "4.1"; "0.0"; "0.3"; "1.4"; "-1.4"; "0.0"; "-0.0"; "9.9"; "1e+21"; "NaN"].
Proof. vm_compute. reflexivity. Qed.

Example Math_round_samples :
  map JS.Math_round [23.5; 2.5; -2.5; 0.49999999999999994; 1.4; -1.6; 9999.99]%float
  = [24; 3; -2; 0; 1; -2; 10000]%float.
Proof. vm_compute. reflexivity. Qed.

Example enUS_samples :
  map Intl.toLocaleString_enUS [850; 1234.5; 0.1234567; -5000; 0]%float
  = ["850"; "1,234.5"; "0.123"; "-5,000"; "0"]
  /\ map Intl.format_USD_0 [72000; 65000; 1234567.89; 0.5; -1234.5]%float
     = ["$72,000"; "$65,000"; "$1,234,568"; "$1"; "-$1,235"].
Proof. split; vm_compute; reflexivity. Qed.

Example trim_samples :
  map Trim.trim ["  Springfield "; "IL"; "   "; ""; " New York"]
  = ["Springfield"; "IL"; ""; ""; "New York"].
Proof. vm_compute. reflexivity. Qed.

(** ** Strings *)

Lemma append_percent_not_NA (s : string) : s ++ "%" <> "N/A".
Proof.
  destruct s as [|a [|b [|c [|d s]]]]; simpl; discriminate.
Qed.

(** ** formatNumber *)

(** C1, as the script computes it: 2350000 is 2.35 million and prints as
    "2.4M", 45000 prints as "45K" (a whole number of thousands carries no
    decimal), and 850 prints as "850" in the en-US locale. *)
Theorem formatNumber_examples :
  formatNumber Intl.toLocaleString_enUS (JS.Num 2350000) = "2.4M"
  /\ formatNumber Intl.toLocaleString_enUS (JS.Num 45000) = "45K"
  /\ formatNumber Intl.toLocaleString_enUS (JS.Num 850) = "850".
Proof. repeat split; vm_compute; reflexivity. Qed.

(** C1 as stated fails: the formatter gives neither "23.5M" for 2350000 nor
    "45.0K" for 45000. *)
Lemma formatNumber_examples_as_stated_fail :
  ~ (formatNumber Intl.toLocaleString_enUS (JS.Num 2350000) = "23.5M"
     /\ formatNumber Intl.toLocaleString_enUS (JS.Num 45000) = "45.0K"
     /\ formatNumber Intl.toLocaleString_enUS (JS.Num 850) = "850").
Proof. intros [H _]. vm_compute in H. discriminate H. Qed.

(** C5, for the values the guard lets through: a number that is neither
    zero nor NaN prints as [round(v/100000)/10] and "M" from one million
    up, as [round(v/100)/10] and "K" from one thousand up to one million,
    and as its locale rendering below one thousand. *)
Theorem formatNumber_ranges (toLocaleString : JS.number -> string) (v : JS.number) :
  JS.truthy (JS.Num v) = true ->
  (JS.ge (JS.Num v) 1000000 = true ->
     formatNumber toLocaleString (JS.Num v)
     = JS.Number_toString (JS.Math_round (v / 100000) / 10) ++ "M")
  /\ (JS.ge (JS.Num v) 1000 = true -> JS.lt (JS.Num v) 1000000 = true ->
     formatNumber toLocaleString (JS.Num v)
     = JS.Number_toString (JS.Math_round (v / 100) / 10) ++ "K")
  /\ (JS.lt (JS.Num v) 1000 = true ->
     formatNumber toLocaleString (JS.Num v) = toLocaleString v).
Proof.
  intros Ht. unfold formatNumber. rewrite Ht. cbn [negb JS.toNumber].
  unfold JS.ge, JS.lt. cbn [JS.toNumber].
  repeat split.
  - intros H. rewrite H. reflexivity.
  - intros H1 H2. rewrite (ltb_leb_false _ _ H2), H1. reflexivity.
  - intros H.
    rewrite (below_thousand_not_million _ H), (ltb_leb_false _ _ H). reflexivity.
Qed.

Lemma formatNumber_ranges_witness :
  formatNumber Intl.toLocaleString_enUS (JS.Num 1500000) = "1.5M"
  /\ formatNumber Intl.toLocaleString_enUS (JS.Num 1234) = "1.2K"
  /\ formatNumber Intl.toLocaleString_enUS (JS.Num 999.5) = "999.5".
Proof.
  destruct (formatNumber_ranges Intl.toLocaleString_enUS 1500000 eq_refl) as [H _].
  destruct (formatNumber_ranges Intl.toLocaleString_enUS 1234 eq_refl) as [_ [H0 _]].
  destruct (formatNumber_ranges Intl.toLocaleString_enUS 999.5 eq_refl) as [_ [_ H1]].
  split; [|split].
  - rewrite (H eq_refl). vm_compute. reflexivity.
  - rewrite (H0 eq_refl eq_refl). vm_compute. reflexivity.
  - rewrite (H1 eq_refl). vm_compute. reflexivity.
Defined.

(** C5 as stated fails at zero, a present number below one thousand: the
    formatter answers "N/A", not the locale rendering "0". *)
Lemma formatNumber_zero_not_locale :
  JS.lt (JS.Num 0) 1000 = true
  /\ Intl.toLocaleString_enUS 0 = "0"
  /\ formatNumber Intl.toLocaleString_enUS (JS.Num 0) <> Intl.toLocaleString_enUS 0.
Proof. repeat split. vm_compute. discriminate. Qed.

(** ** formatPercentage *)

(** C3: [formatPercentage] answers "N/A" exactly for [undefined] and
    [null]; every number, zero included, is printed by [toFixed(1)] with a
    "%" after it, so a rate of 0 reads "0.0%" while an omitted rate reads
    "N/A". *)
Theorem formatPercentage_absent_only :
  (forall v : JS.value,
     formatPercentage v = "N/A" <-> v = JS.Undefined \/ v = JS.Null)
  /\ (forall x : JS.number, formatPercentage (JS.Num x) = JS.toFixed x 1 ++ "%")
  /\ formatPercentage (JS.Num 0) = "0.0%"
  /\ (forall c s, formatPercentage (unemployment_rate (bare c s)) = "N/A").
Proof.
  split; [|split; [|split]].
  - intros v; split.
    + destruct v as [| |x]; [now left | now right |].
      unfold formatPercentage; cbn [JS.isNullish JS.toNumber].
      intros H. exfalso. exact (append_percent_not_NA _ H).
    + intros [-> | ->]; reflexivity.
  - intros x. reflexivity.
  - vm_compute. reflexivity.
  - intros c s. reflexivity.
Qed.

(** ** Zero as a missing value *)

(** C4: the guards of [formatNumber], [formatCurrency] and of the
    population and income rules test truthiness, so a zero is handled as a
    missing value: both formatters answer "N/A" and the rule adds no
    sentence. *)
Theorem zero_treated_as_missing
    (toLocaleString : JS.number -> string) (data : AnalysisRecord)
    (insights : list string) :
  formatNumber toLocaleString (JS.Num 0) = "N/A"
  /\ formatCurrency (JS.Num 0) = "N/A"
  /\ (total_population data = JS.Num 0 -> population data = JS.Num 0 ->
      populationInsights toLocaleString data insights = insights)
  /\ (median_household_income data = JS.Num 0 ->
      incomeInsights data insights = insights).
Proof.
  split; [reflexivity | split; [reflexivity | split]].
  - intros H1 H2. unfold populationInsights. rewrite H1, H2. reflexivity.
  - intros H. unfold incomeInsights. rewrite H. reflexivity.
Qed.

Lemma zero_treated_as_missing_witness :
  populationInsights Intl.toLocaleString_enUS ghost_town [] = []
  /\ incomeInsights ghost_town [] = []
  /\ collectInsights Intl.toLocaleString_enUS ghost_town = [].
Proof.
  destruct (zero_treated_as_missing Intl.toLocaleString_enUS ghost_town [])
    as [_ [_ [Hp Hi]]].
  split; [exact (Hp eq_refl eq_refl) | split; [exact (Hi eq_refl) | reflexivity]].
Defined.

(** ** generateInsights *)

(** C2, as the script computes it: the Springfield record yields four
    sentences; 4.1 is below 5, so the fourth is the low-unemployment
    sentence. *)
Theorem springfield_insights (toLocaleString : JS.number -> string) :
  sentences (generateInsights toLocaleString springfield)
  = [ "Springfield is a mid-size city with 114K residents.";
      "Moderate population growth of 3.2% over the past 5 years.";
      "Median household income of $65,000 is close to national average.";
      "Low unemployment rate of 4.1%." ].
Proof. vm_compute. reflexivity. Qed.

(** C2 as stated fails: the fourth sentence is not the
    around-national-average sentence. *)
Lemma springfield_unemployment_not_around_average :
  sentences (generateInsights Intl.toLocaleString_enUS springfield)
  <> [ "Springfield is a mid-size city with 114K residents.";
       "Moderate population growth of 3.2% over the past 5 years.";
       "Median household income of $65,000 is close to national average.";
       "Unemployment rate of 4.1% is around national average." ]
  /\ forall p, nth 3 (sentences (generateInsights Intl.toLocaleString_enUS springfield)) ""
               <> "Unemployment rate of " ++ p ++ " is around national average.".
Proof.
  split.
  - vm_compute. discriminate.
  - intros p. vm_compute. discriminate.
Qed.

Lemma fold_appendInsight (l : list string) (c : list div) :
  sentences (fold_left appendInsight l c) = (sentences c ++ l)%list.
Proof.
  revert c. induction l as [|s l IH]; intros c; simpl.
  - now rewrite app_nil_r.
  - rewrite IH. unfold appendInsight, sentences. rewrite map_app. simpl.
    now rewrite <- app_assoc.
Qed.

(** What is displayed: the collected sentences, or the fallback when there
    is none. *)
Lemma generateInsights_sentences (toLocaleString : JS.number -> string)
    (data : AnalysisRecord) :
  sentences (generateInsights toLocaleString data)
  = match collectInsights toLocaleString data with
    | [] => [fallback]
    | l => l
    end.
Proof.
  unfold generateInsights.
  destruct (collectInsights toLocaleString data) as [|s l] eqn:E.
  - reflexivity.
  - cbn [List.length Nat.eqb]. now rewrite fold_appendInsight.
Qed.

(** When none of the tracked keys is in the record (every field reads
    [undefined]), exactly one sentence is displayed, the fallback. *)
Theorem fallback_when_all_absent (toLocaleString : JS.number -> string)
    (data : AnalysisRecord) :
  total_population data = JS.Undefined ->
  population data = JS.Undefined ->
  population_growth_5yr data = JS.Undefined ->
  median_household_income data = JS.Undefined ->
  unemployment_rate data = JS.Undefined ->
  sentences (generateInsights toLocaleString data)
  = ["No specific insights available with current data."]
  /\ generateInsights toLocaleString data <> [].
Proof.
  intros Ht Hp Hg Hi Hu.
  assert (E : collectInsights toLocaleString data = []).
  { unfold collectInsights, populationInsights, growthInsights, incomeInsights,
      employmentInsights. rewrite Ht, Hp, Hg, Hi, Hu. reflexivity. }
  split.
  - rewrite generateInsights_sentences, E. reflexivity.
  - unfold generateInsights. rewrite E. discriminate.
Qed.

Lemma fallback_when_all_absent_witness :
  sentences (generateInsights Intl.toLocaleString_enUS (bare "Springfield" "IL"))
  = ["No specific insights available with current data."]
  /\ generateInsights Intl.toLocaleString_enUS (bare "Springfield" "IL") <> [].
Proof.
  apply (fallback_when_all_absent Intl.toLocaleString_enUS (bare "Springfield" "IL"));
    reflexivity.
Defined.

(** *** What each rule adds *)

Section Rules.

Variable toLocaleString : JS.number -> string.
Variable data : AnalysisRecord.

Lemma populationInsights_adds (insights : list string) :
  exists p,
    populationInsights toLocaleString data insights = (insights ++ p)%list
    /\ (List.length p <= 1)%nat
    /\ Forall (PopulationSentence (city data)) p
    /\ (total_population data = JS.Undefined ->
        population data = JS.Undefined -> p = []).
Proof.
  unfold populationInsights, push.
  destruct (JS.truthy (JS.logical_or (total_population data) (population data))) eqn:T.
  - assert (A : total_population data = JS.Undefined ->
                population data = JS.Undefined -> False).
    { intros Ht Hp. rewrite Ht, Hp in T. discriminate T. }
    repeat match goal with |- context [if ?b then _ else _] => destruct b end;
      eexists [_]; (split; [reflexivity|]); (split; [simpl; lia|]);
      (split; [repeat constructor | intros Ht Hp; destruct (A Ht Hp)]).
  - exists []. rewrite app_nil_r. repeat split; auto.
Qed.

Lemma growthInsights_adds (insights : list string) :
  exists g,
    growthInsights data insights = (insights ++ g)%list
    /\ (List.length g <= 1)%nat
    /\ Forall GrowthSentence g
    /\ (population_growth_5yr data = JS.Undefined -> g = []).
Proof.
  unfold growthInsights, push.
  destruct (JS.isUndefined (population_growth_5yr data)) eqn:T; cbn [negb].
  - exists []. rewrite app_nil_r. repeat split; auto.
  - assert (A : population_growth_5yr data = JS.Undefined -> False).
    { intros H. rewrite H in T. discriminate T. }
    repeat match goal with |- context [if ?b then _ else _] => destruct b end;
      eexists [_]; (split; [reflexivity|]); (split; [simpl; lia|]);
      (split; [repeat constructor | intros H; destruct (A H)]).
Qed.

Lemma incomeInsights_adds (insights : list string) :
  exists i,
    incomeInsights data insights = (insights ++ i)%list
    /\ (List.length i <= 1)%nat
    /\ Forall IncomeSentence i
    /\ (median_household_income data = JS.Undefined -> i = []).
Proof.
  unfold incomeInsights, push.
  destruct (JS.truthy (median_household_income data)) eqn:T.
  - assert (A : median_household_income data = JS.Undefined -> False).
    { intros H. rewrite H in T. discriminate T. }
    repeat match goal with |- context [if ?b then _ else _] => destruct b end;
      eexists [_]; (split; [reflexivity|]); (split; [simpl; lia|]);
      (split; [repeat constructor | intros H; destruct (A H)]).
  - exists []. rewrite app_nil_r. repeat split; auto.
Qed.

Lemma employmentInsights_adds (insights : list string) :
  exists e,
    employmentInsights data insights = (insights ++ e)%list
    /\ (List.length e <= 1)%nat
    /\ Forall EmploymentSentence e
    /\ (unemployment_rate data = JS.Undefined -> e = []).
Proof.
  unfold employmentInsights, push.
  destruct (JS.isUndefined (unemployment_rate data)) eqn:T; cbn [negb].
  - exists []. rewrite app_nil_r. repeat split; auto.
  - assert (A : unemployment_rate data = JS.Undefined -> False).
    { intros H. rewrite H in T. discriminate T. }
    repeat match goal with |- context [if ?b then _ else _] => destruct b end;
      eexists [_]; (split; [reflexivity|]); (split; [simpl; lia|]);
      (split; [repeat constructor | intros H; destruct (A H)]).
Qed.

End Rules.

(** The insight list is the concatenation of what the population, the
    growth, the income and the employment rule add, in this order; each
    adds at most one sentence, of its own class, and none when the key of
    its field is missing (the field reads [undefined]).  What is displayed
    is this list, or the fallback alone when the list is empty. *)
Theorem insights_ordered_one_per_rule (toLocaleString : JS.number -> string)
    (data : AnalysisRecord) :
  exists p g i e : list string,
    collectInsights toLocaleString data = (p ++ g ++ i ++ e)%list
    /\ (sentences (generateInsights toLocaleString data) = (p ++ g ++ i ++ e)%list
        \/ (p ++ g ++ i ++ e)%list = []
           /\ sentences (generateInsights toLocaleString data) = [fallback])
    /\ (List.length p <= 1 /\ List.length g <= 1
        /\ List.length i <= 1 /\ List.length e <= 1)%nat
    /\ Forall (PopulationSentence (city data)) p
    /\ Forall GrowthSentence g
    /\ Forall IncomeSentence i
    /\ Forall EmploymentSentence e
    /\ (total_population data = JS.Undefined ->
        population data = JS.Undefined -> p = [])
    /\ (population_growth_5yr data = JS.Undefined -> g = [])
    /\ (median_household_income data = JS.Undefined -> i = [])
    /\ (unemployment_rate data = JS.Undefined -> e = []).
Proof.
  destruct (populationInsights_adds toLocaleString data []) as (p & Ep & Lp & Fp & Ap).
  destruct (growthInsights_adds data (populationInsights toLocaleString data []))
    as (g & Eg & Lg & Fg & Ag).
  destruct (incomeInsights_adds data
              (growthInsights data (populationInsights toLocaleString data [])))
    as (i & Ei & Li & Fi & Ai).
  destruct (employmentInsights_adds data
              (incomeInsights data
                 (growthInsights data (populationInsights toLocaleString data []))))
    as (e & Ee & Le & Fe & Ae).
  assert (E : collectInsights toLocaleString data = (p ++ g ++ i ++ e)%list).
  { unfold collectInsights. rewrite Ee, Ei, Eg, Ep. cbn [app].
    now rewrite <- !app_assoc. }
  exists p, g, i, e.
  split; [exact E|]. split.
  - rewrite generateInsights_sentences, E.
    destruct (p ++ g ++ i ++ e)%list; [right; split; reflexivity | left; reflexivity].
  - repeat split; assumption.
Qed.

(** ** Trimming *)

Lemma ws2_not_ws1 (a b : nat) : Trim.ws2 a b = true -> Trim.ws1 a = false.
Proof.
  unfold Trim.ws2, Trim.ws1. intros H.
  apply andb_true_iff in H as [H _]. apply Nat.eqb_eq in H. subst a. reflexivity.
Qed.

Lemma ws3_not_shorter (a b c : nat) :
  Trim.ws3 a b c = true -> Trim.ws1 a = false /\ Trim.ws2 a b = false.
Proof.
  unfold Trim.ws3, Trim.ws2, Trim.ws1. intros H.
  repeat (apply orb_true_iff in H as [H | H]);
    repeat (apply andb_true_iff in H as [H ?]);
    apply Nat.eqb_eq in H; subst a; split; reflexivity.
Qed.

Lemma strip_blank (l : list ascii) :
  Trim.blank l ->
  forall fuel, (List.length l <= fuel)%nat -> Trim.strip fuel true l = [].
Proof.
  induction 1 as [|a r Ha _ IH|a b r Hab _ IH|a b c r Habc _ IH];
    intros fuel Hf.
  - destruct fuel; reflexivity.
  - destruct fuel as [|fuel]; [simpl in Hf; lia|].
    cbn [Trim.strip Trim.strip1]. rewrite Ha. apply IH. simpl in Hf. lia.
  - destruct fuel as [|fuel]; [simpl in Hf; lia|].
    cbn [Trim.strip Trim.strip1]. rewrite (ws2_not_ws1 _ _ Hab), Hab.
    apply IH. simpl in Hf. lia.
  - destruct fuel as [|fuel]; [simpl in Hf; lia|].
    destruct (ws3_not_shorter _ _ _ Habc) as [H1 H2].
    cbn [Trim.strip Trim.strip1]. rewrite H1, H2, Habc.
    apply IH. simpl in Hf. lia.
Qed.

(** A white-space-only text is empty once trimmed. *)
Lemma trim_blank (s : string) :
  Trim.blank (list_ascii_of_string s) -> Trim.trim s = "".
Proof.
  intros H. unfold Trim.trim, Trim.trimStart.
  rewrite (strip_blank _ H _ (le_n _)). reflexivity.
Qed.

(** ** analyzeCity *)

Lemma empty_false (s : string) : s <> "" -> empty s = false.
Proof. destruct s; simpl; congruence. Qed.

Section Coordinator.

Variable toLocaleString : JS.number -> string.
Variable today : string.
Variable stringify : AnalysisRecord -> string.
Variable service : Request -> Reply.

Local Abbreviation analyze := (analyzeCity toLocaleString today stringify service).
Local Abbreviation try_ := (tryBlock toLocaleString today stringify service).

(** The [try] block sends one request, whatever comes back. *)
Lemma tryBlock_requests (c s : string) (w : World) :
  requests (snd (try_ c s w)) = (requests w ++ [analysisRequest c s])%list.
Proof.
  unfold tryBlock, fetch, bind.
  destruct (service (analysisRequest c s)) as [| | |r]; try reflexivity.
  cbn [json ret]. destruct (success r); [destruct (data r)|]; reflexivity.
Qed.

Lemma tryBlock_throws (c s : string) (w : World) :
  thrown (service (analysisRequest c s)) -> exists e, fst (try_ c s w) = Throw e.
Proof.
  unfold tryBlock, fetch, bind.
  intros [H | [H | [H | (r & H & Hs & Hd)]]]; rewrite H; cbn [json ret throw];
    [exists NetworkError | exists SyntaxError | exists TypeError | exists TypeError];
    try reflexivity.
  rewrite Hs, Hd. reflexivity.
Qed.

Lemma tryBlock_refused (c s : string) (w : World) (r : ServiceResponse) :
  service (analysisRequest c s) = Json r -> success r = false ->
  try_ c s w
  = showError (error_or_default (error r))
      {| dom := dom w; requests := requests w ++ [analysisRequest c s];
         console := console w |}.
Proof.
  intros H Hs. unfold tryBlock, fetch, bind. rewrite H. cbn [json ret].
  rewrite Hs. reflexivity.
Qed.

Lemma analyzeCity_invalid (w : World) :
  Trim.trim (text (dom w) city_value) = ""
  \/ Trim.trim (text (dom w) state_value) = "" ->
  analyze w = showError "Please enter both city and state." w.
Proof.
  intros H. unfold analyzeCity, bind, read.
  destruct H as [H|H]; rewrite H; [reflexivity|].
  rewrite orb_true_r. reflexivity.
Qed.

Lemma analyzeCity_valid (w : World) :
  Trim.trim (text (dom w) city_value) <> "" ->
  Trim.trim (text (dom w) state_value) <> "" ->
  analyze w
  = try_catch_finally
      (try_ (Trim.trim (text (dom w) city_value))
            (Trim.trim (text (dom w) state_value)))
      catchBlock hideLoading (loading w).
Proof.
  intros Hc Hs. unfold analyzeCity at 1. unfold bind at 1 2, read.
  rewrite (empty_false _ Hc), (empty_false _ Hs). reflexivity.
Qed.

(** C8: when the city or the state input is empty or holds white space
    only, that is, when its trimmed text is empty, no request is sent and
    the error box shows "Please enter both city and state."; when both
    trimmed texts are non-empty, exactly one request is sent, carrying the
    trimmed pair. *)
Theorem validation_gates_the_request (w : World) :
  let city := Trim.trim (text (dom w) city_value) in
  let state := Trim.trim (text (dom w) state_value) in
  let w' := snd (analyze w) in
  (city = "" \/ state = ""
   \/ Trim.blank (list_ascii_of_string (text (dom w) city_value))
   \/ Trim.blank (list_ascii_of_string (text (dom w) state_value)) ->
     requests w' = requests w
     /\ text (dom w') error_textContent = "Please enter both city and state."
     /\ text (dom w') error_display = "block")
  /\ (city <> "" /\ state <> "" ->
     requests w' = (requests w ++ [analysisRequest city state])%list).
Proof.
  intros city state w'. subst w'. split.
  - intros H.
    assert (E : city = "" \/ state = "").
    { destruct H as [H | [H | [H | H]]];
        [left; exact H | right; exact H
        | left; exact (trim_blank _ H) | right; exact (trim_blank _ H)]. }
    rewrite (analyzeCity_invalid w E). repeat split; reflexivity.
  - intros [Hc Hs]. rewrite (analyzeCity_valid w Hc Hs).
    fold city; fold state. unfold try_catch_finally.
    pose proof (tryBlock_requests city state (loading w)) as R.
    destruct (try_ city state (loading w)) as [[u|e] w2]; cbn [snd] in R;
      cbv [catchBlock hideLoading showError console_error write bind snd requests];
      exact R.
Qed.

(** C9: however a submitted request completes, the handler ends normally
    with the loading indicator hidden and the button enabled again; when
    the [try] block throws, the network-error message is shown. *)
Theorem loading_always_cleared (w : World) :
  let city := Trim.trim (text (dom w) city_value) in
  let state := Trim.trim (text (dom w) state_value) in
  let w' := snd (analyze w) in
  city <> "" -> state <> "" ->
  fst (analyze w) = Normal tt
  /\ text (dom w') loading_display = "none"
  /\ dom w' analyzeBtn_disabled = Flag false
  /\ text (dom w') btnText_display = "inline"
  /\ text (dom w') spinner_display = "none"
  /\ (thrown (service (analysisRequest city state)) ->
      text (dom w') error_textContent
      = "Network error. Please check your connection and try again."
      /\ text (dom w') error_display = "block").
Proof.
  intros city state w' Hc Hs. subst w'.
  rewrite (analyzeCity_valid w Hc Hs). fold city; fold state.
  unfold try_catch_finally.
  pose proof (tryBlock_throws city state (loading w)) as T.
  destruct (try_ city state (loading w)) as [[[]|e] w2]; cbn [fst] in T.
  - repeat split; try reflexivity; destruct (T H) as [e E]; discriminate E.
  - repeat split; reflexivity.
Qed.

(** C10, for the texts the script lets through: after a response with a
    false success flag the error box shows the error text of the service
    when it is a non-empty string and the default message when it is
    missing or empty; the results stay hidden and no formatted field is
    written. *)
Theorem refusal_shows_service_error (w : World) (r : ServiceResponse) :
  let city := Trim.trim (text (dom w) city_value) in
  let state := Trim.trim (text (dom w) state_value) in
  let w' := snd (analyze w) in
  city <> "" -> state <> "" ->
  service (analysisRequest city state) = Json r -> success r = false ->
  (forall e, error r = Some e -> e <> "" -> text (dom w') error_textContent = e)
  /\ (error r = None \/ error r = Some "" ->
      text (dom w') error_textContent
      = "An error occurred while analyzing the city.")
  /\ text (dom w') error_display = "block"
  /\ text (dom w') results_display = "none"
  /\ dom w' results_show = Flag false
  /\ (forall k,
        In k [cityName_textContent; analysisDate_textContent;
              population_textContent; growth_textContent; income_textContent;
              unemployment_textContent; insights_children;
              jsonData_textContent] ->
        dom w' k = dom w k).
Proof.
  intros city state w' Hc Hs Hr Hf. subst w'.
  rewrite (analyzeCity_valid w Hc Hs). fold city; fold state.
  unfold try_catch_finally. rewrite (tryBlock_refused _ _ _ r Hr Hf).
  repeat split; try reflexivity.
  - intros e He Hne. rewrite He. unfold error_or_default.
    rewrite (empty_false _ Hne). reflexivity.
  - intros [He | He]; rewrite He; reflexivity.
  - intros k Hk. cbn [In] in Hk.
    repeat (destruct Hk as [<- | Hk]; [reflexivity|]). destruct Hk.
Qed.

End Coordinator.

Lemma validation_gates_the_request_witness :
  (requests (snd (submit (always FetchRejects) "   " "IL")) = []
   /\ text (dom (snd (submit (always FetchRejects) "   " "IL"))) error_textContent
      = "Please enter both city and state."
   /\ text (dom (snd (submit (always FetchRejects) "   " "IL"))) error_display
      = "block")
  /\ requests (snd (submit (always FetchRejects) " Springfield " "IL"))
     = [analysisRequest "Springfield" "IL"].
Proof.
  split.
  - apply (validation_gates_the_request Intl.toLocaleString_enUS scenario_date
             scenario_json (always FetchRejects) (start "   " "IL")).
    do 2 right. left. cbn. repeat (apply Trim.blank_1; [reflexivity|]).
    apply Trim.blank_nil.
  - apply (validation_gates_the_request Intl.toLocaleString_enUS scenario_date
             scenario_json (always FetchRejects) (start " Springfield " "IL")).
    split; vm_compute; discriminate.
Defined.

Lemma loading_always_cleared_witness :
  fst (submit (always FetchRejects) "Springfield" "IL") = Normal tt
  /\ text (dom (snd (submit (always FetchRejects) "Springfield" "IL"))) loading_display
     = "none"
  /\ dom (snd (submit (always FetchRejects) "Springfield" "IL")) analyzeBtn_disabled
     = Flag false
  /\ text (dom (snd (submit (always FetchRejects) "Springfield" "IL"))) error_textContent
     = "Network error. Please check your connection and try again.".
Proof.
  assert (Hc : Trim.trim (text (dom (start "Springfield" "IL")) city_value) <> "")
    by (vm_compute; discriminate).
  assert (Hs : Trim.trim (text (dom (start "Springfield" "IL")) state_value) <> "")
    by (vm_compute; discriminate).
  destruct (loading_always_cleared Intl.toLocaleString_enUS scenario_date
              scenario_json (always FetchRejects) (start "Springfield" "IL") Hc Hs)
    as (N & L & B & _ & _ & T).
  destruct T as [T _]; [left; reflexivity|].
  repeat split; assumption.
Defined.

Lemma refusal_shows_service_error_witness :
  text (dom (snd (submit (always (refusal (Some "City not found"))) "Springfield" "IL")))
    error_textContent = "City not found"
  /\ text (dom (snd (submit (always (refusal (Some "City not found"))) "Springfield" "IL")))
       results_display = "none"
  /\ text (dom (snd (submit (always (refusal None)) "Springfield" "IL")))
       error_textContent = "An error occurred while analyzing the city.".
Proof.
  assert (Hc : Trim.trim (text (dom (start "Springfield" "IL")) city_value) <> "")
    by (vm_compute; discriminate).
  assert (Hs : Trim.trim (text (dom (start "Springfield" "IL")) state_value) <> "")
    by (vm_compute; discriminate).
  destruct (refusal_shows_service_error Intl.toLocaleString_enUS scenario_date
              scenario_json (always (refusal (Some "City not found")))
              (start "Springfield" "IL")
              {| success := false; data := None; error := Some "City not found" |}
              Hc Hs eq_refl eq_refl)
    as (E & _ & _ & R & _).
  destruct (refusal_shows_service_error Intl.toLocaleString_enUS scenario_date
              scenario_json (always (refusal None))
              (start "Springfield" "IL")
              {| success := false; data := None; error := None |}
              Hc Hs eq_refl eq_refl)
    as (_ & D & _).
  split; [apply E; [reflexivity | discriminate] | split; [exact R|]].
  apply D. left. reflexivity.
Defined.

(** C10 as stated fails for an empty error text: the service provides the
    text "", and the page shows the default message instead of it. *)
Lemma empty_error_text_not_passed_through :
  let reply := {| success := false; data := None; error := Some "" |} in
  let w' := snd (submit (always (Json reply)) "Springfield" "IL") in
  success reply = false
  /\ error reply = Some ""
  /\ text (dom w') error_textContent = "An error occurred while analyzing the city."
  /\ text (dom w') error_textContent <> "".
Proof. repeat split. vm_compute. discriminate. Qed.

(** A rate that is present with the value [null] passes the
    [!== undefined] guard and compares as zero. *)
Example null_rate_is_not_absent (toLocaleString : JS.number -> string) :
  collectInsights toLocaleString
    {| city := "Springfield"; state := "IL";
       total_population := JS.Undefined; population := JS.Undefined;
       population_growth_5yr := JS.Undefined;
       median_household_income := JS.Undefined;
       unemployment_rate := JS.Null |}
  = ["Very low unemployment rate of N/A."].
Proof. reflexivity. Qed.

(** * Further properties of the engine *)

(** ** First characters of printed numbers *)

Lemma first_char_app (a b : string) :
  first_char (a ++ b)
  = match first_char a with Some c => Some c | None => first_char b end.
Proof. destruct a; reflexivity. Qed.

Lemma first_char_sub0 (k : Z) (s : string) :
  first_char (JS.sub 0 k s) = None \/ first_char (JS.sub 0 k s) = first_char s.
Proof.
  unfold JS.sub. cbn [Z.to_nat]. destruct (Z.to_nat k), s; simpl; auto.
Qed.

Lemma starts_with_digit_app (a b : string) :
  starts_with_digit a -> starts_with_digit (a ++ b).
Proof.
  intros (c & H & D). exists c. rewrite first_char_app, H. auto.
Qed.

Lemma digits_start (n : Z) : starts_with_digit (JS.digits n).
Proof.
  unfold JS.digits, NilZero.string_of_uint.
  destruct (N.to_uint (Z.to_N n)); simpl; eexists; split; reflexivity.
Qed.

Lemma zeros_start (z : Z) (s : string) :
  starts_with_digit s -> starts_with_digit (JS.zeros z ++ s).
Proof.
  intros H. unfold JS.zeros. destruct (Z.to_nat z); simpl; [exact H|].
  exists "0"%char. split; reflexivity.
Qed.

Lemma digit_unsigned (s : string) : starts_with_digit s -> unsigned_text s.
Proof.
  intros (c & H & D). exists c. split; [exact H|]. intros ->. discriminate D.
Qed.

Lemma split_at_point_unsigned (k : Z) (s t : string) :
  starts_with_digit s -> unsigned_text (JS.sub 0 k s ++ "." ++ t).
Proof.
  intros (c & H & D). destruct (first_char_sub0 k s) as [E|E].
  - exists "."%char. rewrite first_char_app, E. split; [reflexivity|discriminate].
  - exists c. rewrite first_char_app, E, H. split; [reflexivity|].
    intros ->. discriminate D.
Qed.

Lemma layout_unsigned (ds : string) (k n : Z) :
  starts_with_digit ds -> unsigned_text (JS.layout ds k n).
Proof.
  intros H. unfold JS.layout.
  repeat match goal with |- context [if ?b then _ else _] => destruct b end.
  - apply digit_unsigned, starts_with_digit_app, H.
  - apply split_at_point_unsigned, H.
  - exists "0"%char. split; [reflexivity|discriminate].
  - apply digit_unsigned, starts_with_digit_app, H.
  - apply digit_unsigned, starts_with_digit_app, H.
  - apply split_at_point_unsigned, H.
  - apply split_at_point_unsigned, H.
Qed.

Lemma fixed_unsigned (vn vd : Z) : unsigned_text (JS.fixed vn vd 1).
Proof.
  unfold JS.fixed. cbn [Z.eqb].
  set (ms := JS.digits _).
  apply split_at_point_unsigned.
  destruct (JS.len ms <=? 1)%Z.
  - apply zeros_start, digits_start.
  - apply digits_start.
Qed.

Lemma Number_toString_unsigned (x : JS.number) :
  below_zero x = false -> unsigned_text (JS.Number_toString x).
Proof.
  unfold below_zero, JS.Number_toString.
  destruct (Prim2SF x) as [s|s| |s m e]; intros H.
  - exists "0"%char. split; [reflexivity|discriminate].
  - subst s. exists "I"%char. split; [reflexivity|discriminate].
  - exists "N"%char. split; [reflexivity|discriminate].
  - subst s. destruct (JS.shortest (Z.pos m) e) as [[d k] n].
    cbn [append]. apply layout_unsigned, digits_start.
Qed.

Lemma toFixed_unsigned (x : JS.number) :
  below_zero x = false -> unsigned_text (JS.toFixed x 1).
Proof.
  intros H. pose proof (Number_toString_unsigned x H) as N.
  unfold JS.toFixed. unfold below_zero in H.
  destruct (Prim2SF x) as [s|s| |s m e] eqn:E; try exact N.
  - apply fixed_unsigned.
  - subst s. destruct (JS.exact (Z.pos m) e) as [vn vd]. cbn [append].
    destruct (10 ^ 21 * vd <=? vn)%Z; [|apply fixed_unsigned].
    apply Number_toString_unsigned. unfold below_zero.
    rewrite abs_spec, E. reflexivity.
Qed.

Lemma abs_not_below_zero (x : JS.number) : below_zero (PrimFloat.abs x) = false.
Proof.
  unfold below_zero. rewrite abs_spec. destruct (Prim2SF x); reflexivity.
Qed.

(** A number above a number without sign has no sign. *)
Lemma above_zero_not_below (c x : JS.number) :
  below_zero c = false -> PrimFloat.ltb c x = true -> below_zero x = false.
Proof.
  unfold below_zero. rewrite ltb_spec. unfold SFltb, SFcompare.
  destruct (Prim2SF c) as [sc|sc| |sc mc ec], (Prim2SF x) as [s|s| |s m e];
    intros Hc H; try reflexivity; try discriminate; subst;
    try destruct s; try destruct sc; try reflexivity; try discriminate.
Qed.

Lemma percentage_unsigned (x : JS.number) :
  below_zero x = false -> unsigned_text (formatPercentage (JS.Num x)).
Proof.
  intros H. destruct (toFixed_unsigned x H) as (c & Hc & N).
  exists c. split; [|exact N].
  unfold formatPercentage. cbn [JS.isNullish JS.toNumber].
  rewrite first_char_app, Hc. reflexivity.
Qed.

Lemma gt_not_below_zero (v : JS.value) (c : JS.number) :
  below_zero c = false -> JS.gt v c = true ->
  exists x, v = JS.Num x /\ below_zero x = false.
Proof.
  intros Hc H. destruct v as [| |x].
  - unfold JS.gt in H. cbn [JS.toNumber] in H. rewrite ltb_spec in H.
    unfold SFltb, SFcompare in H. change (Prim2SF nan) with S754_nan in H.
    destruct (Prim2SF c); discriminate H.
  - unfold JS.gt in H. cbn [JS.toNumber] in H. rewrite ltb_spec in H.
    unfold below_zero in Hc.
    unfold SFltb, SFcompare in H. change (Prim2SF 0) with (S754_zero false) in H.
    destruct (Prim2SF c) as [s|s| |s m e]; try discriminate H;
      subst; discriminate H.
  - exists x. split; [reflexivity|]. exact (above_zero_not_below c x Hc H).
Qed.

(** ** "N/A" and the formatters *)

Lemma format_USD_0_start (x : JS.number) :
  exists rest,
    Intl.format_USD_0 x = "$" ++ rest \/ Intl.format_USD_0 x = "-$" ++ rest.
Proof.
  unfold Intl.format_USD_0. exists (Intl.magnitude x 0).
  destruct (Intl.negative x); [right|left]; reflexivity.
Qed.

Lemma formatCurrency_NA (v : JS.value) :
  formatCurrency v = "N/A" <-> JS.truthy v = false.
Proof.
  unfold formatCurrency. destruct (JS.truthy v); cbn [negb]; split; try reflexivity;
    try discriminate.
  intros H. destruct (format_USD_0_start (JS.toNumber v)) as (rest & [E|E]);
    rewrite E in H; discriminate H.
Qed.

Lemma append_suffix_not_NA (s : string) (c : ascii) :
  c <> "A"%char -> s ++ String c "" <> "N/A".
Proof.
  intros Hc. destruct s as [|a [|b [|c' [|d s]]]]; simpl; try discriminate.
  intros H. injection H as _ _ H. congruence.
Qed.

Lemma formatNumber_NA (toLocaleString : JS.number -> string) (v : JS.value) :
  (forall x, toLocaleString x <> "N/A") ->
  formatNumber toLocaleString v = "N/A" <-> JS.truthy v = false.
Proof.
  intros Hhost. unfold formatNumber.
  destruct (JS.truthy v); cbn [negb]; split; try reflexivity; try discriminate.
  intros H. exfalso.
  destruct (JS.ge v 1000000); [|destruct (JS.ge v 1000)].
  - revert H. apply append_suffix_not_NA. discriminate.
  - revert H. apply append_suffix_not_NA. discriminate.
  - exact (Hhost _ H).
Qed.

Lemma formatPercentage_NA (v : JS.value) :
  formatPercentage v = "N/A" -> v = JS.Undefined \/ v = JS.Null.
Proof.
  destruct v as [| |x]; auto. unfold formatPercentage. cbn [JS.isNullish JS.toNumber].
  intros H. destruct (append_percent_not_NA _ H).
Qed.

Lemma hd_error_app {A} (a b : list A) :
  hd_error (a ++ b)
  = match hd_error a with Some x => Some x | None => hd_error b end.
Proof. destruct a; reflexivity. Qed.

(** Grouping puts no separator in front of the first digit. *)
Lemma group_rev_keeps_last (l : list ascii) :
  forall i, hd_error (rev (Intl.group_rev l i)) = hd_error (rev l).
Proof.
  induction l as [|c r IH]; intros i; [reflexivity|].
  cbn [Intl.group_rev]. destruct (Nat.eqb i 3); cbn [rev];
    rewrite ?hd_error_app, IH; destruct (hd_error (rev r)); reflexivity.
Qed.

Lemma first_char_of_list (l : list ascii) :
  first_char (string_of_list_ascii l) = hd_error l.
Proof. destruct l; reflexivity. Qed.

Lemma grouped_first_char (ds : string) :
  first_char (Intl.grouped ds) = first_char ds.
Proof.
  unfold Intl.grouped.
  rewrite first_char_of_list, group_rev_keeps_last, rev_involutive.
  destruct ds; reflexivity.
Qed.

(** The en-US rendering of a number is never the text "N/A". *)
Lemma toLocaleString_enUS_not_NA (x : JS.number) :
  Intl.toLocaleString_enUS x <> "N/A".
Proof.
  unfold Intl.toLocaleString_enUS.
  destruct (Intl.negative x); [discriminate|]. cbn [append].
  unfold Intl.magnitude.
  destruct (Prim2SF x) as [s|s| |s m e]; try discriminate.
  destruct (JS.shortest (Z.pos m) e) as [[d k] n].
  set (q := (_ / _)%Z). set (f := Intl.fraction _ _).
  destruct (digits_start q) as (c & Hc & Dc).
  intros H.
  assert (F : first_char (Intl.grouped (JS.digits q) ++ f) = Some c).
  { rewrite first_char_app, grouped_first_char, Hc. reflexivity. }
  rewrite H in F. injection F as <-. discriminate Dc.
Qed.

(** A truthy value is a number that is infinite or finite and not zero. *)
Lemma truthy_number (v : JS.value) :
  JS.truthy v = true ->
  exists x,
    v = JS.Num x
    /\ ((exists s, Prim2SF x = S754_infinity s)
        \/ (exists s m e, Prim2SF x = S754_finite s m e)).
Proof.
  destruct v as [| |x]; try discriminate. cbn [JS.truthy]. unfold JS.isNaN.
  rewrite !eqb_spec. change (Prim2SF 0) with (S754_zero false).
  intros H. exists x. split; [reflexivity|].
  destruct (Prim2SF x) as [s|s| |s m e] eqn:E.
  - destruct s; discriminate H.
  - left. exists s. reflexivity.
  - discriminate H.
  - right. exists s, m, e. reflexivity.
Qed.

(** The sign the en-US formats print is the sign of the comparison with
    zero. *)
Lemma negative_is_below_zero (x : JS.number) :
  JS.truthy (JS.Num x) = true -> Intl.negative x = PrimFloat.ltb x 0.
Proof.
  intros H. destruct (truthy_number _ H) as (y & E & [(s & P) | (s & m & e & P)]);
    injection E as <-; unfold Intl.negative; rewrite ltb_spec, P;
    change (Prim2SF 0) with (S754_zero false); destruct s; reflexivity.
Qed.

Lemma magnitude_start (x : JS.number) :
  JS.truthy (JS.Num x) = true ->
  starts_with_digit (Intl.magnitude x 0) \/ Intl.magnitude x 0 = Intl.infinity_sign.
Proof.
  intros H. destruct (truthy_number _ H) as (y & E & [(s & P) | (s & m & e & P)]);
    injection E as <-; unfold Intl.magnitude; rewrite P.
  - right. reflexivity.
  - left. destruct (JS.shortest (Z.pos m) e) as [[d k] n].
    set (q := (_ / _)%Z). destruct (digits_start q) as (c & Hc & Dc).
    exists c. rewrite first_char_app, grouped_first_char, Hc. auto.
Qed.

(** X1: [formatCurrency] answers "N/A" exactly for a falsy amount
    (undefined, null, zero, NaN).  Every other amount is printed as "-$"
    and a figure when it is below zero, and as "$" and a figure when it is
    not; the figure starts with a digit, or is the infinity sign. *)
Theorem formatCurrency_dollar_or_NA (amount : JS.value) :
  (formatCurrency amount = "N/A" <-> JS.truthy amount = false)
  /\ (JS.truthy amount = true ->
      exists figure,
        formatCurrency amount
        = (if JS.lt amount 0 then "-$" else "$") ++ figure
        /\ (starts_with_digit figure \/ figure = Intl.infinity_sign)).
Proof.
  split; [apply formatCurrency_NA|].
  intros H. destruct (truthy_number _ H) as (x & -> & _).
  exists (Intl.magnitude x 0). split; [|apply magnitude_start, H].
  unfold formatCurrency. rewrite H. cbn [negb JS.toNumber]. unfold Intl.format_USD_0.
  rewrite (negative_is_below_zero x H). unfold JS.lt. cbn [JS.toNumber].
  destruct (PrimFloat.ltb x 0); reflexivity.
Qed.

(** X2: in a locale whose number rendering is never the text "N/A",
    [formatNumber] answers "N/A" exactly for a falsy value; en-US is such
    a locale. *)
Theorem formatNumber_NA_exactly_when_falsy
    (toLocaleString : JS.number -> string) (num : JS.value) :
  (forall x, toLocaleString x <> "N/A") ->
  (formatNumber toLocaleString num = "N/A" <-> JS.truthy num = false).
Proof. intros H. apply formatNumber_NA, H. Qed.

Lemma formatNumber_NA_exactly_when_falsy_witness :
  (formatNumber Intl.toLocaleString_enUS (JS.Num 0) = "N/A"
   <-> JS.truthy (JS.Num 0) = false)
  /\ (formatNumber Intl.toLocaleString_enUS (JS.Num 850) = "N/A"
      <-> JS.truthy (JS.Num 850) = false).
Proof.
  split; apply (formatNumber_NA_exactly_when_falsy Intl.toLocaleString_enUS);
    exact toLocaleString_enUS_not_NA.
Defined.

(** ** Cards and sentences *)

(** X3: the income card and the income rule agree: when the card reads
    "N/A" the rule adds nothing, and otherwise it adds one sentence that
    quotes the text of the card. *)
Theorem income_card_and_sentence_agree (data : AnalysisRecord)
    (insights : list string) :
  let card := formatCurrency (median_household_income data) in
  (card = "N/A" -> incomeInsights data insights = insights)
  /\ (card <> "N/A" ->
      exists verdict,
        In verdict [" is significantly above national average.";
                    " is above national average.";
                    " is below national average.";
                    " is close to national average."]
        /\ incomeInsights data insights
           = (insights
              ++ [("Median household income of " ++ card ++ verdict)%string])%list).
Proof.
  intros card. subst card. unfold incomeInsights, push. split.
  - intros H. apply formatCurrency_NA in H. rewrite H. reflexivity.
  - intros H.
    destruct (JS.truthy (median_household_income data)) eqn:T;
      [|exfalso; apply H, formatCurrency_NA, T].
    repeat match goal with |- context [if ?b then _ else _] => destruct b end;
      eexists; (split; [|reflexivity]); cbn [In]; auto.
Qed.

(** X4: in a locale whose number rendering is never "N/A", the population
    card and the population rule agree: an "N/A" card comes with no
    sentence, any other card is quoted by the one sentence the rule adds.
    The figure is [total_population], or [population] when that is falsy. *)
Theorem population_card_and_sentence_agree
    (toLocaleString : JS.number -> string) (data : AnalysisRecord)
    (insights : list string) :
  (forall x, toLocaleString x <> "N/A") ->
  let card := formatNumber toLocaleString
                (JS.logical_or (total_population data) (population data)) in
  (card = "N/A" -> populationInsights toLocaleString data insights = insights)
  /\ (card <> "N/A" ->
      exists kind,
        In kind [" is a major metropolitan area with ";
                 " is a substantial city with ";
                 " is a mid-size city with "; " is a smaller city with "]
        /\ populationInsights toLocaleString data insights
           = (insights
              ++ [(city data ++ kind ++ card ++ " residents.")%string])%list).
Proof.
  intros Hhost card. subst card. unfold populationInsights, push. split.
  - intros H. apply (formatNumber_NA _ _ Hhost) in H. rewrite H. reflexivity.
  - intros H.
    destruct (JS.truthy (JS.logical_or (total_population data) (population data)))
      eqn:T; [|exfalso; apply H, (formatNumber_NA _ _ Hhost), T].
    repeat match goal with |- context [if ?b then _ else _] => destruct b end;
      eexists; (split; [|reflexivity]); cbn [In]; auto.
Qed.

Lemma population_card_and_sentence_agree_witness :
  populationInsights Intl.toLocaleString_enUS ghost_town [] = []
  /\ exists kind,
       In kind [" is a major metropolitan area with ";
                " is a substantial city with ";
                " is a mid-size city with "; " is a smaller city with "]
       /\ populationInsights Intl.toLocaleString_enUS springfield []
          = ["Springfield" ++ kind ++ "114K" ++ " residents."].
Proof.
  destruct (population_card_and_sentence_agree Intl.toLocaleString_enUS ghost_town []
              toLocaleString_enUS_not_NA) as [H0 _].
  destruct (population_card_and_sentence_agree Intl.toLocaleString_enUS springfield []
              toLocaleString_enUS_not_NA) as [_ H1].
  split; [apply H0; reflexivity|].
  apply H1. vm_compute. discriminate.
Defined.

(** X5: a percentage card reads "N/A" for a missing key and for [null]
    alike, but the rules only skip the missing key: a [null] growth still
    yields the stable-population sentence and a [null] unemployment rate
    yields "Very low unemployment rate of N/A.". *)
Theorem null_percentage_still_speaks (data : AnalysisRecord)
    (insights : list string) :
  (formatPercentage (population_growth_5yr data) = "N/A" ->
     (population_growth_5yr data = JS.Undefined
      /\ growthInsights data insights = insights)
     \/ (population_growth_5yr data = JS.Null
         /\ growthInsights data insights
            = (insights
               ++ ["Population has remained stable over the past 5 years."])%list))
  /\ (formatPercentage (unemployment_rate data) = "N/A" ->
     (unemployment_rate data = JS.Undefined
      /\ employmentInsights data insights = insights)
     \/ (unemployment_rate data = JS.Null
         /\ employmentInsights data insights
            = (insights ++ ["Very low unemployment rate of N/A."])%list)).
Proof.
  split; intros H; apply formatPercentage_NA in H as [H|H].
  - left. split; [exact H|]. unfold growthInsights. rewrite H. reflexivity.
  - right. split; [exact H|]. unfold growthInsights. rewrite H. reflexivity.
  - left. split; [exact H|]. unfold employmentInsights. rewrite H. reflexivity.
  - right. split; [exact H|]. unfold employmentInsights. rewrite H. reflexivity.
Qed.

(** X6: the growth rule never prints a negative figure: it adds nothing,
    or the stable-population sentence, or a sentence whose percentage does
    not begin with a minus sign (a decline is phrased with the absolute
    value). *)
Theorem growth_figure_is_never_negative (data : AnalysisRecord)
    (insights : list string) :
  growthInsights data insights = insights
  \/ growthInsights data insights
     = (insights ++ ["Population has remained stable over the past 5 years."])%list
  \/ exists wording figure,
       In wording ["Rapid population growth of "; "Strong population growth of ";
                   "Moderate population growth of "; "Population decline of "]
       /\ unsigned_text figure
       /\ growthInsights data insights
          = (insights
             ++ [(wording ++ figure ++ " over the past 5 years.")%string])%list.
Proof.
  unfold growthInsights, push.
  destruct (JS.isUndefined (population_growth_5yr data)); cbn [negb];
    [left; reflexivity|].
  right.
  destruct (JS.gt (population_growth_5yr data) 10) eqn:G10;
    [|destruct (JS.gt (population_growth_5yr data) 5) eqn:G5;
      [|destruct (JS.gt (population_growth_5yr data) 0) eqn:G0;
        [|destruct (JS.lt (population_growth_5yr data) 0) eqn:L0]]].
  - right. destruct (gt_not_below_zero _ 10%float eq_refl G10) as (x & -> & Hx).
    eexists _, _. split; [|split; [exact (percentage_unsigned x Hx)|reflexivity]].
    cbn [In]; auto.
  - right. destruct (gt_not_below_zero _ 5%float eq_refl G5) as (x & -> & Hx).
    eexists _, _. split; [|split; [exact (percentage_unsigned x Hx)|reflexivity]].
    cbn [In]; auto.
  - right. destruct (gt_not_below_zero _ 0%float eq_refl G0) as (x & -> & Hx).
    eexists _, _. split; [|split; [exact (percentage_unsigned x Hx)|reflexivity]].
    cbn [In]; auto.
  - right. exists "Population decline of ".
    exists (formatPercentage (JS.Num (JS.Math_abs (population_growth_5yr data)))).
    split; [cbn [In]; auto|].
    split; [exact (percentage_unsigned _ (abs_not_below_zero _))|reflexivity].
  - left. reflexivity.
Qed.

(** X7: the cut-offs of the income rule are exactly 91000, 77000 and 56000
    (the products of 70000 with 1.3, 1.1 and 0.8 are exact in binary64),
    and a truthy income is classed by strict comparisons with them, so
    that 91000 itself is "above" and 77000 and 56000 are "close to". *)
Theorem income_cutoffs_are_exact (data : AnalysisRecord) (insights : list string)
    (income : JS.number) :
  median_household_income data = JS.Num income ->
  JS.truthy (JS.Num income) = true ->
  (nationalMedian * 1.3 = 91000 /\ nationalMedian * 1.1 = 77000
   /\ nationalMedian * 0.8 = 56000)%float
  /\ incomeInsights data insights
     = (insights ++
        [("Median household income of " ++ formatCurrency (JS.Num income) ++
          (if PrimFloat.ltb 91000 income
           then " is significantly above national average."
           else if PrimFloat.ltb 77000 income then " is above national average."
           else if PrimFloat.ltb income 56000 then " is below national average."
           else " is close to national average."))%string])%list.
Proof.
  intros E T. split; [repeat split|].
  unfold incomeInsights, push. rewrite E, T. unfold JS.gt, JS.lt. cbn [JS.toNumber].
  change (nationalMedian * 1.3)%float with 91000%float.
  change (nationalMedian * 1.1)%float with 77000%float.
  change (nationalMedian * 0.8)%float with 56000%float.
  destruct (PrimFloat.ltb 91000 income); [reflexivity|].
  destruct (PrimFloat.ltb 77000 income); [reflexivity|].
  destruct (PrimFloat.ltb income 56000); reflexivity.
Qed.

Lemma income_cutoffs_are_exact_witness :
  incomeInsights prosperous []
  = ["Median household income of $91,000 is above national average."].
Proof.
  destruct (income_cutoffs_are_exact prosperous [] 91000 eq_refl eq_refl) as [_ H].
  rewrite H. vm_compute. reflexivity.
Defined.

(** ** The container *)

Lemma fold_appendInsight_items (l : list string) (c : list div) :
  fold_left appendInsight l c
  = (c ++ map (fun s => {| className := "insight-item"; textContent := s |}) l)%list.
Proof.
  revert c. induction l as [|s l IH]; intros c; simpl.
  - now rewrite app_nil_r.
  - rewrite IH. unfold appendInsight. now rewrite <- app_assoc.
Qed.

Lemma collectInsights_length (toLocaleString : JS.number -> string)
    (data : AnalysisRecord) :
  (List.length (collectInsights toLocaleString data) <= 4)%nat.
Proof.
  unfold collectInsights.
  destruct (populationInsights_adds toLocaleString data []) as (p & Ep & Lp & _).
  destruct (growthInsights_adds data (populationInsights toLocaleString data []))
    as (g & Eg & Lg & _).
  destruct (incomeInsights_adds data
              (growthInsights data (populationInsights toLocaleString data [])))
    as (i & Ei & Li & _).
  destruct (employmentInsights_adds data
              (incomeInsights data
                 (growthInsights data (populationInsights toLocaleString data []))))
    as (e & Ee & Le & _).
  rewrite Ee, Ei, Eg, Ep. rewrite !length_app. simpl. lia.
Qed.

(** X8: whatever the record, [generateInsights] leaves between one and
    four items in the container, each of class "insight-item". *)
Theorem insight_items_between_one_and_four
    (toLocaleString : JS.number -> string) (data : AnalysisRecord) :
  (1 <= List.length (generateInsights toLocaleString data) <= 4)%nat
  /\ Forall (fun item => className item = "insight-item")
       (generateInsights toLocaleString data).
Proof.
  pose proof (collectInsights_length toLocaleString data) as L.
  unfold generateInsights.
  destruct (collectInsights toLocaleString data) as [|s l] eqn:E.
  - cbn. split; [lia|]. repeat constructor.
  - cbn [List.length Nat.eqb]. rewrite fold_appendInsight_items. cbn [app].
    rewrite length_map. split; [simpl in *; lia|].
    apply Forall_forall. intros item H. apply in_map_iff in H as (x & <- & _).
    reflexivity.
Qed.

(** * Further properties of the controller *)

Lemma reply_cases (reply : Reply) :
  (exists r d, reply = Json r /\ success r = true /\ data r = Some d)
  \/ (exists r, reply = Json r /\ success r = false)
  \/ thrown reply.
Proof.
  destruct reply as [| | |r].
  - right; right; left; reflexivity.
  - right; right; right; left; reflexivity.
  - right; right; right; right; left; reflexivity.
  - destruct (success r) eqn:S; [destruct (data r) as [d|] eqn:D|].
    + left. exists r, d. auto.
    + right; right; right; right; right. exists r. auto.
    + right; left. exists r. auto.
Qed.

Lemma error_or_default_nonempty (e : option string) : error_or_default e <> "".
Proof.
  unfold error_or_default. destruct e as [[|c s]|]; simpl; discriminate.
Qed.

(** The page after the writes of the handlers. *)
Ltac written :=
  cbv [displayResults showResults hideResults showLoading hideLoading showError
       hideError catchBlock console_error write bind snd fst dom requests console
       set slot_eqb].

Section Page.

Variable toLocaleString : JS.number -> string.
Variable today : string.
Variable stringify : AnalysisRecord -> string.
Variable service : Request -> Reply.

Local Abbreviation analyze := (analyzeCity toLocaleString today stringify service).
Local Abbreviation try_ := (tryBlock toLocaleString today stringify service).
Local Abbreviation on_click :=
  (bindEvents toLocaleString today stringify service click_toggleJson).

Lemma tryBlock_success (c s : string) (w : World) (r : ServiceResponse)
    (d : AnalysisRecord) :
  service (analysisRequest c s) = Json r -> success r = true -> data r = Some d ->
  try_ c s w
  = displayResults toLocaleString today stringify (Some d)
      {| dom := dom w; requests := requests w ++ [analysisRequest c s];
         console := console w |}.
Proof.
  intros H Hs Hd. unfold tryBlock, fetch, bind. rewrite H. cbn [json ret].
  rewrite Hs, Hd. reflexivity.
Qed.

Lemma tryBlock_thrown (c s : string) (w : World) :
  thrown (service (analysisRequest c s)) ->
  exists e,
    try_ c s w
    = (Throw e, {| dom := dom w; requests := requests w ++ [analysisRequest c s];
                   console := console w |}).
Proof.
  unfold tryBlock, fetch, bind.
  intros [H | [H | [H | (r & H & Hs & Hd)]]]; rewrite H; cbn [json ret throw];
    [exists NetworkError | exists SyntaxError | exists TypeError | exists TypeError];
    try reflexivity.
  rewrite Hs, Hd. reflexivity.
Qed.

(** The three ways a submitted request ends. *)
Ltac submitted w Hc Hs :=
  rewrite (analyzeCity_valid _ _ _ _ w Hc Hs); unfold try_catch_finally;
  let r := fresh "r" in let d := fresh "d" in let e := fresh "e" in
  let Hr := fresh "Hr" in let Ht := fresh "Ht" in let Hd := fresh "Hd" in
  let E := fresh "E" in
  destruct (reply_cases (service (analysisRequest
              (Trim.trim (text (dom w) city_value))
              (Trim.trim (text (dom w) state_value)))))
    as [(r & d & Hr & Ht & Hd) | [(r & Hr & Ht) | Hr]];
  [ rewrite (tryBlock_success _ _ _ r d Hr Ht Hd)
  | rewrite (tryBlock_refused _ _ _ _ _ _ _ r Hr Ht)
  | destruct (tryBlock_thrown _ _ (loading w) Hr) as [e E]; rewrite E ].

(** X9: a click on the toggle shows the JSON panel when its inline display
    is "none" and hides it in every other case (an unset display
    included); afterwards the label names the opposite action.  Nothing
    else on the page changes and nothing is sent or logged. *)
Theorem toggle_label_matches_visibility (w : World) :
  let w' := snd (on_click w) in
  fst (on_click w) = Normal tt
  /\ (text (dom w) jsonData_display = "none" ->
      text (dom w') jsonData_display = "block"
      /\ text (dom w') toggleJson_textContent = "Hide JSON Data")
  /\ (text (dom w) jsonData_display <> "none" ->
      text (dom w') jsonData_display = "none"
      /\ text (dom w') toggleJson_textContent = "Show JSON Data")
  /\ requests w' = requests w
  /\ console w' = console w
  /\ (forall k, k <> jsonData_display -> k <> toggleJson_textContent ->
      dom w' k = dom w k).
Proof.
  intros w'. subst w'. unfold bindEvents, toggleJsonDisplay, bind, read.
  destruct (String.eqb_spec (text (dom w) jsonData_display) "none") as [E|E].
  - split; [reflexivity|]. split; [intros _; split; reflexivity|].
    split; [intros H; contradiction|]. split; [reflexivity|]. split; [reflexivity|].
    intros k H1 H2. destruct k; try reflexivity; contradiction.
  - split; [reflexivity|]. split; [intros H; contradiction|].
    split; [intros _; split; reflexivity|]. split; [reflexivity|].
    split; [reflexivity|].
    intros k H1 H2. destruct k; try reflexivity; contradiction.
Qed.

(** X10: when the panel and its label are in step (hidden with "Show JSON
    Data", or shown with "Hide JSON Data"), two clicks bring the whole page
    back to what it was. *)
Theorem toggle_twice_restores (w : World) :
  (dom w jsonData_display = Str "none"
   /\ dom w toggleJson_textContent = Str "Show JSON Data")
  \/ (dom w jsonData_display = Str "block"
      /\ dom w toggleJson_textContent = Str "Hide JSON Data") ->
  forall k, dom (snd (on_click (snd (on_click w)))) k = dom w k.
Proof.
  intros H k. unfold bindEvents, toggleJsonDisplay, bind, read, text.
  destruct H as [[H1 H2] | [H1 H2]]; rewrite H1; cbn;
    destruct k; try reflexivity; cbn; congruence.
Qed.



(** X13: a submission that fails validation writes the error box and
    nothing else: the loading state is not entered, nothing is logged, and
    a results panel shown by an earlier analysis stays as it is. *)
Theorem validation_failure_touches_error_box_only (w : World) :
  let w' := snd (analyze w) in
  Trim.trim (text (dom w) city_value) = ""
  \/ Trim.trim (text (dom w) state_value) = "" ->
  fst (analyze w) = Normal tt
  /\ console w' = console w
  /\ (forall k, k <> error_textContent -> k <> error_display ->
      dom w' k = dom w k).
Proof.
  intros w' H. subst w'. rewrite (analyzeCity_invalid _ _ _ _ w H).
  repeat split. intros k H1 H2. destruct k; try reflexivity; contradiction.
Qed.

(** X14: for responses whose error, when there is one, is a string:
    whenever the error box is shown after a submission, its message is not
    empty: it is the validation message, the network message, the default
    message or a non-empty text of the service. *)
Theorem shown_error_is_never_empty (w : World) :
  let w' := snd (analyze w) in
  text (dom w') error_display = "block" ->
  text (dom w') error_textContent <> "".
Proof.
  intros w'. subst w'.
  destruct (string_dec (Trim.trim (text (dom w) city_value)) "") as [Hc|Hc];
    [rewrite (analyzeCity_invalid _ _ _ _ w (or_introl Hc)); intros _; discriminate|].
  destruct (string_dec (Trim.trim (text (dom w) state_value)) "") as [Hs|Hs];
    [rewrite (analyzeCity_invalid _ _ _ _ w (or_intror Hs)); intros _; discriminate|].
  submitted w Hc Hs.
  - match goal with |- ?shown = "block" -> _ =>
      replace shown with "none" by reflexivity end.
    intros H. discriminate H.
  - intros _. apply error_or_default_nonempty.
  - intros _. discriminate.
Qed.


(** X16: no submission, valid or not and however it ends, changes what the
    two inputs hold or the state of the JSON panel and of its label. *)
Theorem submit_keeps_inputs_and_json_panel (w : World) :
  let w' := snd (analyze w) in
  dom w' city_value = dom w city_value
  /\ dom w' state_value = dom w state_value
  /\ dom w' jsonData_display = dom w jsonData_display
  /\ dom w' toggleJson_textContent = dom w toggleJson_textContent.
Proof.
  intros w'. subst w'.
  destruct (string_dec (Trim.trim (text (dom w) city_value)) "") as [Hc|Hc];
    [rewrite (analyzeCity_invalid _ _ _ _ w (or_introl Hc)); repeat split|].
  destruct (string_dec (Trim.trim (text (dom w) state_value)) "") as [Hs|Hs];
    [rewrite (analyzeCity_invalid _ _ _ _ w (or_intror Hs)); repeat split|].
  submitted w Hc Hs; repeat split.
Qed.

(** X17: the request of a valid submission goes out from the loading
    page: the [try] block starts when the indicator is shown, the button
    disabled and its spinner on, and the error box and the results panel
    hidden; nothing has been sent before. *)
Theorem request_goes_out_from_the_loading_page (w : World) :
  let city_ := Trim.trim (text (dom w) city_value) in
  let state_ := Trim.trim (text (dom w) state_value) in
  city_ <> "" -> state_ <> "" ->
  analyze w
  = try_catch_finally (try_ city_ state_) catchBlock hideLoading (loading w)
  /\ text (dom (loading w)) loading_display = "block"
  /\ dom (loading w) analyzeBtn_disabled = Flag true
  /\ text (dom (loading w)) btnText_display = "none"
  /\ text (dom (loading w)) spinner_display = "inline"
  /\ text (dom (loading w)) error_display = "none"
  /\ text (dom (loading w)) results_display = "none"
  /\ dom (loading w) results_show = Flag false
  /\ requests (loading w) = requests w.
Proof.
  intros c s Hc Hs. split; [exact (analyzeCity_valid _ _ _ _ w Hc Hs)|].
  repeat split; reflexivity.
Qed.

End Page.

Section Resubmission.

Variable toLocaleString : JS.number -> string.
Variable stringify : AnalysisRecord -> string.
Variable service : Request -> Reply.

(** What [new Date().toLocaleDateString()] gives at the first and at the
    second submission. *)
Variables earlier later : string.

Local Abbreviation submit_at today :=
  (bindEvents toLocaleString today stringify service submit_analysisForm).

(** X18: submitting the form a second time, with the inputs untouched and
    the service answering as before, changes no property of the page
    except the analysis date, which is read off the clock at each call:
    the page is then what a first submission at the later date would have
    left (cards and insights are rewritten, not appended to).  Records are
    taken with tracked fields that are numbers, [null] or missing. *)
Theorem resubmitting_rewrites_only_the_date (w : World) :
  let first := snd (submit_at earlier w) in
  let second := snd (submit_at later first) in
  (forall k, k <> analysisDate_textContent -> dom second k = dom first k)
  /\ (forall k, dom second k = dom (snd (submit_at later w)) k).
Proof.
  intros first second. subst first second. cbn [bindEvents].
  destruct (string_dec (Trim.trim (text (dom w) city_value)) "") as [Hc|Hc].
  { rewrite !(analyzeCity_invalid _ _ _ _ w (or_introl Hc)).
    match goal with |- context [analyzeCity _ _ _ _ (snd ?W)] =>
      rewrite (analyzeCity_invalid _ later _ _ (snd W) (or_introl Hc)) end.
    split; intros k; destruct k; reflexivity. }
  destruct (string_dec (Trim.trim (text (dom w) state_value)) "") as [Hs|Hs].
  { rewrite !(analyzeCity_invalid _ _ _ _ w (or_intror Hs)).
    match goal with |- context [analyzeCity _ _ _ _ (snd ?W)] =>
      rewrite (analyzeCity_invalid _ later _ _ (snd W) (or_intror Hs)) end.
    split; intros k; destruct k; reflexivity. }
  rewrite !(analyzeCity_valid _ _ _ _ w Hc Hs). unfold try_catch_finally.
  destruct (reply_cases (service (analysisRequest
              (Trim.trim (text (dom w) city_value))
              (Trim.trim (text (dom w) state_value)))))
    as [(r & d & Hr & Ht & Hd) | [(r & Hr & Ht) | Hr]].
  - rewrite !(tryBlock_success _ _ _ _ _ _ _ r d Hr Ht Hd).
    match goal with |- context [analyzeCity _ _ _ _ ?W] =>
      rewrite (analyzeCity_valid _ later _ _ W Hc Hs) end.
    unfold try_catch_finally.
    match goal with |- context [tryBlock _ _ _ _ ?c ?s (loading ?W)] =>
      rewrite (tryBlock_success _ later _ _ c s (loading W) r d Hr Ht Hd) end.
    written. split; intros k; destruct k; try reflexivity. intros H; contradiction.
  - rewrite !(tryBlock_refused _ _ _ _ _ _ _ r Hr Ht).
    match goal with |- context [analyzeCity _ _ _ _ ?W] =>
      rewrite (analyzeCity_valid _ later _ _ W Hc Hs) end.
    unfold try_catch_finally.
    match goal with |- context [tryBlock _ _ _ _ ?c ?s (loading ?W)] =>
      rewrite (tryBlock_refused _ later _ _ c s (loading W) r Hr Ht) end.
    written. split; intros k; destruct k; reflexivity.
  - destruct (tryBlock_thrown toLocaleString earlier stringify service _ _
                (loading w) Hr) as [e1 E1].
    destruct (tryBlock_thrown toLocaleString later stringify service _ _
                (loading w) Hr) as [e2 E2].
    rewrite E1, E2.
    match goal with |- context [analyzeCity _ _ _ _ ?W] =>
      rewrite (analyzeCity_valid _ later _ _ W Hc Hs) end.
    unfold try_catch_finally.
    match goal with |- context [tryBlock _ _ _ _ ?c ?s (loading ?W)] =>
      destruct (tryBlock_thrown toLocaleString later stringify service c s
                  (loading W) Hr) as [e3 E3]; rewrite E3 end.
    written. split; intros k; destruct k; reflexivity.
Qed.

End Resubmission.

(** ** The further properties at the scenarios *)

Lemma valid_inputs :
  Trim.trim (text (dom (start "Springfield" "IL")) city_value) <> ""
  /\ Trim.trim (text (dom (start "Springfield" "IL")) state_value) <> "".
Proof. split; vm_compute; discriminate. Qed.

Lemma toggle_twice_restores_witness :
  dom (snd (click (snd (click json_hidden)))) jsonData_display = Str "none"
  /\ dom (snd (click (snd (click json_hidden)))) toggleJson_textContent
     = Str "Show JSON Data".
Proof.
  assert (H : (dom json_hidden jsonData_display = Str "none"
               /\ dom json_hidden toggleJson_textContent = Str "Show JSON Data")
              \/ (dom json_hidden jsonData_display = Str "block"
                  /\ dom json_hidden toggleJson_textContent = Str "Hide JSON Data"))
    by (left; split; reflexivity).
  unfold click.
  split;
    rewrite (toggle_twice_restores Intl.toLocaleString_enUS scenario_date
               scenario_json (always FetchRejects) json_hidden H);
    reflexivity.
Defined.



Lemma validation_failure_touches_error_box_only_witness :
  fst (submit springfield_service "" "IL") = Normal tt
  /\ dom (snd (submit springfield_service "" "IL")) results_display
     = dom (start "" "IL") results_display
  /\ dom (snd (submit springfield_service "" "IL")) loading_display
     = dom (start "" "IL") loading_display.
Proof.
  destruct (validation_failure_touches_error_box_only Intl.toLocaleString_enUS
              scenario_date scenario_json springfield_service (start "" "IL"))
    as (N & _ & F); [left; reflexivity|].
  split; [exact N|]. split; apply F; discriminate.
Defined.

Lemma shown_error_is_never_empty_witness :
  text (dom (snd (analyzeCity Intl.toLocaleString_enUS scenario_date scenario_json
                    (always (refusal (Some ""))) (start "Springfield" "IL"))))
    error_display = "block"
  /\ text (dom (snd (analyzeCity Intl.toLocaleString_enUS scenario_date scenario_json
                       (always (refusal (Some ""))) (start "Springfield" "IL"))))
       error_textContent <> "".
Proof.
  split; [vm_compute; reflexivity|].
  apply shown_error_is_never_empty. vm_compute. reflexivity.
Defined.


Lemma request_goes_out_from_the_loading_page_witness :
  dom (loading (start "Springfield" "IL")) analyzeBtn_disabled = Flag true
  /\ text (dom (loading (start "Springfield" "IL"))) loading_display = "block"
  /\ requests (loading (start "Springfield" "IL")) = [].
Proof.
  destruct valid_inputs as [Hc Hs].
  destruct (request_goes_out_from_the_loading_page Intl.toLocaleString_enUS
              scenario_date scenario_json springfield_service
              (start "Springfield" "IL") Hc Hs)
    as (_ & L & B & _ & _ & _ & _ & _ & R).
  repeat split; assumption.
Defined.

(** * Null fields and the insight rules *)

(** C6 fails on the code for fields that are [null]: each of the four
    cards reads "N/A", the formatters taking such a field for absent, yet
    two sentences are displayed and not the fallback, because the growth
    and the employment guard test [!== undefined] only. *)
Theorem all_null_record_misses_the_fallback :
  (formatNumber Intl.toLocaleString_enUS
     (JS.logical_or (total_population all_null) (population all_null)) = "N/A"
   /\ formatPercentage (population_growth_5yr all_null) = "N/A"
   /\ formatCurrency (median_household_income all_null) = "N/A"
   /\ formatPercentage (unemployment_rate all_null) = "N/A")
  /\ sentences (generateInsights Intl.toLocaleString_enUS all_null)
     = ["Population has remained stable over the past 5 years.";
        "Very low unemployment rate of N/A."]
  /\ sentences (generateInsights Intl.toLocaleString_enUS all_null)
     <> ["No specific insights available with current data."].
Proof. repeat split; try (vm_compute; reflexivity). vm_compute. discriminate. Qed.

(** C7 fails on the code for a [null] unemployment rate: the card reads
    "N/A", and the employment rule, instead of adding nothing, adds the
    sentence "Very low unemployment rate of N/A."; the population and the
    income rule do skip a [null] field. *)
Theorem null_rate_gets_an_NA_sentence :
  formatPercentage (unemployment_rate null_rate) = "N/A"
  /\ employmentInsights null_rate [] = ["Very low unemployment rate of N/A."]
  /\ collectInsights Intl.toLocaleString_enUS null_rate
     = ["Springfield is a mid-size city with 114K residents.";
        "Moderate population growth of 3.2% over the past 5 years.";
        "Median household income of $65,000 is close to national average.";
        "Very low unemployment rate of N/A."]
  /\ populationInsights Intl.toLocaleString_enUS all_null [] = []
  /\ incomeInsights all_null [] = [].
Proof. repeat split; vm_compute; reflexivity. Qed.
